(** * remorph: the Snowflake/Presto to Databricks dialect layer

    A shallow embedding of the dialect-extension code of
    [databricks.labs.remorph.snow] (snowflake.py, presto.py, databricks.py)
    and the properties its specification states about it.

    The file has two parts.  Part I embeds the code: Python strings, the
    keyword trie of the tokenizer, the expression nodes of the parser, the
    builders registered in the parsers' [FUNCTIONS] tables, the tokenizer's
    [tokenize], the parser's search for the table alias, and the generator's
    render functions.  Part II states and proves the properties.

    The sqlglot framework the code extends (the base scanner, the base
    renderers, [re], [float]) is not part of the repository; wherever the code
    calls into it the embedding takes the callee as an explicit argument, and
    a theorem that relies on a fact about the framework states it as a
    hypothesis. *)

From Stdlib Require Import ZArith Ascii String Floats DecimalString.
From stdpp Require Import gmap strings list fin_maps.

Set Warnings "-register-all,-clear-no-such-hyp".
Set Default Proof Using "Type".

(* ===================================================================== *)
(** * Part I: the embedding                                                *)
(* ===================================================================== *)

(** ** Python strings

    A [str] is modelled as a [string], a sequence of 8-bit characters: the
    statements and keywords looked at are ASCII text. *)

Module PyStr.

(** A newline character, for the multi-line messages of the source. *)
Definition nl : string := String (ascii_of_nat 10) "".

(** [sub in s] *)
Fixpoint contains (sub s : string) : bool :=
  String.prefix sub s ||
  match s with
  | "" => false
  | String _ s' => contains sub s'
  end.

(** [s.startswith(p)] *)
Definition startswith (s p : string) : bool := String.prefix p s.

(** [s.endswith(suf)] *)
Fixpoint endswith (s suf : string) : bool :=
  String.eqb s suf ||
  match s with
  | "" => false
  | String _ s' => endswith s' suf
  end.

(** [s.replace(old, new)] for a non-empty [old]: the occurrences of [old]
    are found left to right, without overlap.  [skip] counts the characters
    of the current occurrence that are still to be dropped. *)
Fixpoint replace_go (old new : string) (skip : nat) (s : string) : string :=
  match s with
  | "" => ""
  | String c s' =>
      match skip with
      | S k => replace_go old new k s'
      | O =>
          if String.prefix old s
          then new +:+ replace_go old new (String.length old - 1) s'
          else String c (replace_go old new 0 s')
      end
  end.

(** [s.replace("", new)] puts [new] before every character and at the end. *)
Fixpoint intersperse (new s : string) : string :=
  match s with
  | "" => new
  | String c s' => new +:+ String c (intersperse new s')
  end.

Definition replace (s old new : string) : string :=
  match old with
  | "" => intersperse new s
  | _ => replace_go old new 0 s
  end.

(** An index of a slice, as Python normalises it against a length:
    a negative index counts from the end, and the result is clamped to
    [0 .. len]. *)
Definition slice_index (len i : Z) : Z :=
  if (i <? 0)%Z then Z.max (i + len) 0 else Z.min i len.

(** [s[start:end]] *)
Definition slice (s : string) (start stop : Z) : string :=
  let len := Z.of_nat (String.length s) in
  let i := slice_index len start in
  let j := slice_index len stop in
  String.substring (Z.to_nat i) (Z.to_nat (j - i)) s.

(** [sep.join(l)] *)
Fixpoint join (sep : string) (l : list string) : string :=
  match l with
  | [] => ""
  | [x] => x
  | x :: rest => x +:+ sep +:+ join sep rest
  end.

Definition is_upper (c : ascii) : bool :=
  (65 <=? nat_of_ascii c) && (nat_of_ascii c <=? 90).
Definition is_lower (c : ascii) : bool :=
  (97 <=? nat_of_ascii c) && (nat_of_ascii c <=? 122).

(** The character class [[A-Za-z]] of the [re] module. *)
Definition is_alpha (c : ascii) : bool := is_upper c || is_lower c.

Definition upper_char (c : ascii) : ascii :=
  if is_lower c then ascii_of_nat (nat_of_ascii c - 32) else c.

(** [s.upper()], on the ASCII letters. *)
Fixpoint upper (s : string) : string :=
  match s with
  | "" => ""
  | String c s' => String (upper_char c) (upper s')
  end.

(** [str(n)] for an [int]. *)
Definition of_int (n : Z) : string := NilZero.string_of_int (Z.to_int n).

End PyStr.

(** ** Exceptions and results *)

(** The exceptions the embedded code raises or lets through. *)
Inductive exn : Type :=
| ParseError (msg : string)
| UnsupportedError (msg : string)
| ValueError
| TypeError
| ZeroDivisionError
| OverflowError
| AttributeError
| OtherError (name : string).

(** The outcome of a call: a returned value or a raised exception. *)
Inductive result (A : Type) : Type :=
| Return (a : A)
| Raise (e : exn).
Arguments Return {A} a.
Arguments Raise {A} e.

#[global] Instance result_ret : MRet result := λ A a, Return a.
#[global] Instance result_bind : MBind result := λ A B f m,
  match m with
  | Return a => f a
  | Raise e => Raise e
  end.

(** [try: m  except ValueError: handler] *)
Definition except_ValueError {A} (m : result A) (handler : result A) : result A :=
  match m with
  | Raise ValueError => handler
  | _ => m
  end.

(** ** Python floats and the conversions between [float], [int] and [str] *)

Module PyFloat.

(** [float(n)] for an [int]: the nearest binary64 value, [OverflowError] when
    there is none. *)
Definition of_int (n : Z) : result float :=
  match binary_normalize prec emax n 0 false with
  | S754_infinity _ => Raise OverflowError
  | x => Return (SF2Prim x)
  end.

(** [1 / x] on floats: division by either zero raises. *)
Definition one_over (x : float) : result float :=
  if (x =? 0)%float then Raise ZeroDivisionError else Return (1 / x)%float.

(** [int(x)]: truncation toward zero; [int(nan)] is a [ValueError],
    [int(inf)] an [OverflowError]. *)
Definition to_int (x : float) : result Z :=
  match Prim2SF x with
  | S754_zero _ => Return 0%Z
  | S754_infinity _ => Raise OverflowError
  | S754_nan => Raise ValueError
  | S754_finite s m e =>
      let a := Z.shiftl (Z.pos m) e in
      Return (if s then (- a)%Z else a)
  end.

(** The digits of a decimal literal [ddd.ddd]: the integer they spell once
    the point is dropped, and the number of digits after the point. *)
Fixpoint digits (s : string) (acc : Z) (frac : option nat) : option (Z * nat) :=
  match s with
  | "" => Some (acc, default 0 frac)
  | String "." s' =>
      match frac with
      | None => digits s' acc (Some 0)
      | Some _ => None
      end
  | String c s' =>
      match Ascii.is_nat c with
      | Some d => digits s' (10 * acc + Z.of_nat d)%Z (S <$> frac)
      | None => None
      end
  end.

(** [float(s)] on a plain decimal literal [s] (digits with at most one
    point, at least one digit): the quotient of two exactly represented
    integers, hence the binary64 value nearest to the literal, for literals
    of at most 15 digits.  Other spellings [float] accepts (signs,
    exponents, [inf], [nan]) are outside this reading; it serves to run the
    builders on concrete literals. *)
Definition of_decimal (s : string) : option float :=
  match s with
  | "" | "." => None
  | _ =>
      '(n, k) ← digits s 0 None;
      match of_int n, of_int (10 ^ Z.of_nat k) with
      | Return a, Return b => Some (a / b)%float
      | _, _ => None
      end
  end.

End PyFloat.

(** ** Expression nodes *)

Module Ast.

(** What an [args] dict of an expression holds: [None], flags, numbers,
    text, lists and child expressions.  An expression is its class name and
    its [args]. *)
Inductive value : Type :=
| VNone
| VBool (b : bool)
| VInt (z : Z)
| VStr (s : string)
| VList (l : list value)
| VExp (cls : string) (args : gmap string value).

#[global] Instance value_inhabited : Inhabited value := populate VNone.

(** Python's truth value.  An expression object is always true. *)
Definition truthy (v : value) : bool :=
  match v with
  | VNone => false
  | VBool b => b
  | VInt z => negb (z =? 0)%Z
  | VStr s => negb (String.eqb s "")
  | VList l => negb (bool_decide (length l = 0))
  | VExp _ _ => true
  end.

(** [expression.args] *)
Definition args_of (v : value) : gmap string value :=
  match v with
  | VExp _ a => a
  | _ => ∅
  end.

(** [expression.args.get(key)] *)
Definition get_arg (v : value) (key : string) : value :=
  default VNone (args_of v !! key).

(** [isinstance(v, cls)] for a class without subclasses. *)
Definition isinstance (v : value) (c : string) : bool :=
  match v with
  | VExp cls _ => String.eqb cls c
  | _ => false
  end.

(** [seq_get(seq, index)]: the element, [None] past the end. *)
Definition seq_get (seq : list value) (index : nat) : value :=
  default VNone (seq !! index).

(** [exp.Literal(this=text, is_string=b)] *)
Definition Literal (text : string) (is_string : bool) : value :=
  VExp "Literal" {[ "this" := VStr text; "is_string" := VBool is_string ]}.

End Ast.

(** ** The keyword trie (snowflake.py, [Snow.Tokenizer.merge_trie]) *)

Module Trie.
Section trie.
(** Keys are whatever the dict is keyed by (characters and the end
    marker), terminal values whatever a leaf holds. *)
Context {K : Type} `{Countable K} {V : Type}.

(** A value stored in a trie: a nested dict, or anything else. *)
Inductive entry : Type :=
  | Terminal (v : V)
  | Mapping (m : gmap K entry).

(** [isinstance(x, dict)] *)
Definition isinstance_dict (x : entry) : bool :=
  match x with Mapping _ => true | Terminal _ => false end.

(** The value [merge_trie] stores for a key that is in both tries
    (lines 66-74): the recursive merge of two dicts, the parent's value
    when only it is a dict, the new trie's value otherwise. *)
Fixpoint merge_both (parent new : entry) {struct parent} : entry :=
  match parent, new with
  | Mapping pm, Mapping nm =>
      Mapping (union_with (λ p n, Some (merge_both p n)) pm nm)
  | Mapping _, Terminal _ => parent
  | Terminal _, _ => new
  end.

(** [merge_trie(parent_trie, new_trie)]: the loop runs over the union of
    the two key sets; a key of one trie only keeps its value (lines
    75-78), a key of both gets [merge_both]. *)
Definition merge_trie (parent_trie new_trie : gmap K entry) : gmap K entry :=
  union_with (λ p n, Some (merge_both p n)) parent_trie new_trie.
End trie.
Arguments entry K {_ _} V.
End Trie.

(** ** snowflake.py: the parser's builders *)

Module Snowflake.
Import Ast PyStr.

Section builders.
(** [repr] of the argument list, as the f-string of the message prints it. *)
Variable repr_args : list value → string.

Definition indent (n : nat) : string := String.concat "" (replicate n " ").

(** The message of lines 22-25. *)
Definition trytonumber_msg (args : list value) : string :=
  "Error Parsing args `" +:+ repr_args args +:+ "`:" +:+ nl +:+
  indent 29 +:+ "* `format` is required" +:+ nl +:+
  indent 29 +:+ "* `precision` and `scale` both are required [if specifed]" +:+ nl +:+
  indent 26.

(** [local_expression.TryToNumber(this=.., expression=..)] and the
    four-argument form, with the keyword arguments the call passes. *)
Definition TryToNumber2 (this expression : value) : value :=
  VExp "TryToNumber" {[ "this" := this; "expression" := expression ]}.
Definition TryToNumber4 (this expression precision scale : value) : value :=
  VExp "TryToNumber"
    {[ "this" := this; "expression" := expression;
       "precision" := precision; "scale" := scale ]}.

(** [_parse_trytonumber(args)], registered for [TRY_TO_DECIMAL],
    [TRY_TO_NUMBER] and [TRY_TO_NUMERIC]. *)
Definition _parse_trytonumber (args : list value) : result value :=
  if bool_decide (length args = 1) || bool_decide (length args = 3) then
    Raise (ParseError (trytonumber_msg args))
  else if bool_decide (length args = 4) then
    Return (TryToNumber4 (seq_get args 0) (seq_get args 1)
                         (seq_get args 2) (seq_get args 3))
  else
    Return (TryToNumber2 (seq_get args 0) (seq_get args 1)).

(** [_parse_dateadd(args)] *)
Definition _parse_dateadd (args : list value) : value :=
  VExp "DateAdd"
    {[ "this" := seq_get args 2; "expression" := seq_get args 1;
       "unit" := seq_get args 0 ]}.

(** The entries of [Snow.Parser.FUNCTIONS] that route to
    [_parse_trytonumber] (lines 147-149). *)
Definition FUNCTIONS (name : string) : option (list value → result value) :=
  if bool_decide (name ∈ ["TRY_TO_DECIMAL"; "TRY_TO_NUMBER"; "TRY_TO_NUMERIC"])
  then Some _parse_trytonumber
  else None.
End builders.
End Snowflake.

(** ** presto.py: the approximate-percentile builder *)

Module Presto.
Import Ast PyStr.

Section builders.
(** [float(s)] on a [str]: [None] stands for its [ValueError]. *)
Variable float_of_str : string → option float.
(** [str(e)] of an expression, as the f-string of the message prints it. *)
Variable str_of : value → string.
(** [exp.ApproxQuantile.from_arg_list], the framework's generic builder. *)
Variable from_arg_list : list value → value.

(** [arg.this]: only an expression has the attribute. *)
Definition this_of (arg : value) : result value :=
  match arg with
  | VExp _ _ => Return (get_arg arg "this")
  | _ => Raise AttributeError
  end.

(** [float(v)]: text is parsed, a flag or an integer converted; anything
    else is a [TypeError]. *)
Definition py_float (v : value) : result float :=
  match v with
  | VStr s =>
      match float_of_str s with
      | Some x => Return x
      | None => Raise ValueError
      end
  | VBool b => Return (if b then 1 else 0)%float
  | VInt z => PyFloat.of_int z
  | _ => Raise TypeError
  end.

(** [int((1/number) * 100)] where [number = float(arg.this) if arg is not
    None else 0] (lines 15 and 20, 27 and 31).  With [arg] being [None],
    [number] is the integer 0 and the division raises. *)
Definition accuracy (arg : value) : result Z :=
  match arg with
  | VNone => Raise ZeroDivisionError
  | _ =>
      this ← this_of arg;
      number ← py_float this;
      q ← PyFloat.one_over number;
      PyFloat.to_int (q * 100)%float
  end.

Definition accuracy_msg (arg : value) : string :=
  "Expected a string representation of a number for argument 2, but got "
  +:+ str_of arg.

(** [_build_approx_percentile(args)] *)
Definition _build_approx_percentile (args : list value) : result value :=
  if bool_decide (length args = 4) then
    let arg3 := seq_get args 3 in
    except_ValueError
      (n ← accuracy arg3;
       Return (VExp "ApproxQuantile"
                 {[ "this" := seq_get args 0;
                    "weight" := seq_get args 1;
                    "quantile" := seq_get args 2;
                    "accuracy" := Literal (PyStr.of_int n +:+ " ") false ]}))
      (Raise (ParseError (accuracy_msg arg3)))
  else if bool_decide (length args = 3) then
    let arg2 := seq_get args 2 in
    except_ValueError
      (n ← accuracy arg2;
       Return (VExp "ApproxQuantile"
                 {[ "this" := seq_get args 0;
                    "quantile" := seq_get args 1;
                    "accuracy" := Literal (PyStr.of_int n) false ]}))
      (Raise (ParseError (accuracy_msg arg2)))
  else Return (from_arg_list args).

(** [_build_any_keys_match(args)] *)
Definition _build_any_keys_match (args : list value) : value :=
  VExp "ArrayExists"
    {[ "this" := VExp "MapKeys" {[ "this" := seq_get args 0 ]};
       "expression" := seq_get args 1 ]}.
End builders.
End Presto.

(** ** snowflake.py: [Snow.Tokenizer] *)

Module SnowTokenizer.
Import PyStr Trie.

Section tokenizer.
(** The keys and the terminal values of the keyword trie, and the tokens the
    base scanner produces. *)
Context {K : Type} `{Countable K} {V : Type} {token : Type}.

(** The state of a tokenizer: the attributes [tokenize] reads and writes,
    the class attributes [KEYWORDS], [_KEYWORD_TRIE] and [KEYWORD_TRIE]
    among them. *)
Record Tokenizer : Type := {
  sql : string;
  size : Z;
  _current : Z;
  tokens : list token;
  KEYWORDS : gmap string string;
  _KEYWORD_TRIE : gmap K (entry K V);
  KEYWORD_TRIE : gmap K (entry K V);
}.

(** [re.finditer(pattern, string, flags)], as the texts of the matches. *)
Variable finditer : string → string → list string.
(** [sqlglot.trie.new_trie] *)
Variable new_trie : list string → gmap K (entry K V).
(** The base class's [reset] and [_scan]; [_scan] either finishes or raises,
    and in both cases leaves the state it reached. *)
Variable reset : Tokenizer → Tokenizer.
Variable _scan : Tokenizer → Tokenizer * option exn.

Definition CUSTOM_TOKEN_MAP : list (string * string) :=
  [ ("(?i)CREATE\s+OR\s+REPLACE\s+PROCEDURE", "PROCEDURE");
    ("(?i)var\s+\w+\s+=\s+\w+?", "VAR") ].

Definition set_sql (self : Tokenizer) (s : string) : Tokenizer :=
  {| sql := s; size := size self; _current := _current self;
     tokens := tokens self; KEYWORDS := KEYWORDS self;
     _KEYWORD_TRIE := _KEYWORD_TRIE self; KEYWORD_TRIE := KEYWORD_TRIE self |}.

Definition set_size (self : Tokenizer) (n : Z) : Tokenizer :=
  {| sql := sql self; size := n; _current := _current self;
     tokens := tokens self; KEYWORDS := KEYWORDS self;
     _KEYWORD_TRIE := _KEYWORD_TRIE self; KEYWORD_TRIE := KEYWORD_TRIE self |}.

(** [update_keywords]: [new_key_word_dict | cls.KEYWORDS], where the
    entries of [cls.KEYWORDS] win. *)
Definition update_keywords (self : Tokenizer)
    (new_key_word_dict : gmap string string) : Tokenizer :=
  {| sql := sql self; size := size self; _current := _current self;
     tokens := tokens self; KEYWORDS := KEYWORDS self ∪ new_key_word_dict;
     _KEYWORD_TRIE := _KEYWORD_TRIE self; KEYWORD_TRIE := KEYWORD_TRIE self |}.

(** [update_keyword_trie(new_trie)] with the default parent,
    [cls._KEYWORD_TRIE]. *)
Definition update_keyword_trie (self : Tokenizer)
    (new : gmap K (entry K V)) : Tokenizer :=
  {| sql := sql self; size := size self; _current := _current self;
     tokens := tokens self; KEYWORDS := KEYWORDS self;
     _KEYWORD_TRIE := _KEYWORD_TRIE self;
     KEYWORD_TRIE := merge_trie (_KEYWORD_TRIE self) new |}.

Definition match_strings_token_dict (string_ : string)
    (pattern_dict : list (string * string)) : gmap string string :=
  foldl (λ result_dict '(pattern, kind),
           foldl (λ d m, <[upper m := kind]> d) result_dict
                 (finditer pattern string_))
        ∅ pattern_dict.

Definition match_strings_list (string_ : string)
    (pattern_dict : list (string * string)) : list string :=
  '(pattern, _) ← pattern_dict; upper <$> finditer pattern string_.

(** The text the error message quotes (lines 128-132). *)
Definition context (self : Tokenizer) : string :=
  let start := (_current self - 50)%Z in
  let end_ := (_current self + 50)%Z in
  let start := if (0 <? start)%Z then start else 0%Z in
  let end_ := if (end_ <? size self)%Z then end_ else (size self - 1)%Z in
  slice (sql self) start end_.

(** Lines 109-124 of [tokenize]: the state the base scanner is started in. *)
Definition prepare (self : Tokenizer) (sql : string) : Tokenizer :=
  let self := reset self in
  let self := set_sql self sql in
  let ref_dict := match_strings_token_dict sql CUSTOM_TOKEN_MAP in
  let self := update_keywords self ref_dict in
  let custom_trie := new_trie (match_strings_list sql CUSTOM_TOKEN_MAP) in
  let self := update_keyword_trie self custom_trie in
  set_size self (Z.of_nat (String.length sql)).

(** [tokenize(sql)] *)
Definition tokenize (self : Tokenizer) (sql : string)
    : Tokenizer * result (list token) :=
  match _scan (prepare self sql) with
  | (self, None) => (self, Return (tokens self))
  | (self, Some e) =>
      (self, Raise (ParseError ("Error tokenizing '" +:+ context self +:+ "'")))
  end.
End tokenizer.
Arguments Tokenizer K {_ _} V token.
End SnowTokenizer.

(** ** databricks.py: the generator *)

Module Databricks.
Import Ast PyStr.

Definition VALID_DATABRICKS_TYPES : gset string :=
  {[ "BIGINT"; "BINARY"; "BOOLEAN"; "DATE"; "DECIMAL"; "DOUBLE"; "FLOAT";
     "INT"; "INTERVAL"; "VOID"; "SMALLINT"; "STRING"; "TIMESTAMP"; "TINYINT";
     "ARRAY"; "MAP"; "STRUCT" ]}.

(** The expression objects a render function is handed, by identity: a copy
    is a new object, and a write to one object leaves the others alone.  The
    children of an object are part of its value. *)
Definition loc := positive.
Definition store := gmap loc value.

(** The generator ([self]): the methods and settings of the framework's
    generator the render functions call. *)
Record Generator : Type := {
  (** [self.sql(expression, key)] *)
  sql : value → string → string;
  (** [self.expressions(expression, key=, sep=, flat=)]; [None] for a
      separator that is not passed *)
  expressions : value → string → option string → bool → string;
  (** [self.func(name, *args)] *)
  func : string → list value → string;
  (** [self.prepend_ctes(expression, sql)] *)
  prepend_ctes : value → string → string;
  RETURNING_END : bool;
  (** [hive._create_sql(self, expression)] *)
  hive_create_sql : store → loc → store * string;
}.

(** The truth value of a [str]. *)
Definition nonempty (s : string) : bool := negb (String.eqb s "").

(** [expression.copy()]: a new object with an equal value. *)
Definition copy (σ : store) (expression : loc) : store * loc :=
  let l := fresh (dom σ) in (<[l := σ !!! expression]> σ, l).

(** [del expression.args[key]] *)
Definition del_arg (key : string) (v : value) : value :=
  match v with
  | VExp cls args => VExp cls (delete key args)
  | _ => v
  end.

(** [expression.set(key, x)] *)
Definition set_arg (key : string) (x : value) (v : value) : value :=
  match v with
  | VExp cls args => VExp cls (<[key := x]> args)
  | _ => v
  end.

Definition args_to_delete : list string :=
  ["temporary"; "transient"; "external"; "replace"; "exists"; "unique";
   "materialized"; "properties"].

(** One turn of the loop of lines 59-61. *)
Definition delete_if_set (expression : loc) (σ : store) (arg_to_delete : string)
    : store :=
  if truthy (get_arg (σ !!! expression) arg_to_delete)
  then alter (del_arg arg_to_delete) expression σ
  else σ.


(** [_format_create_sql(self, expression)] *)
Definition _format_create_sql (self : Generator) (σ : store) (expression : loc)
    : store * string :=
  let '(σ, expression) := copy σ expression in
  let σ := foldl (delete_if_set expression) σ args_to_delete in
  hive_create_sql self σ expression.

(** [re.search("^([A-Za-z]+)", s)]: the group of the match, if any. *)
Fixpoint leading_alpha (s : string) : string :=
  match s with
  | "" => ""
  | String c s' => if is_alpha c then String c (leading_alpha s') else ""
  end.
Definition search_leading_alpha (s : string) : option string :=
  match leading_alpha s with
  | "" => None
  | g => Some g
  end.

(** The loop of lines 130-133 over [expression.args["constraints"]], a
    list in every tree the parser builds; a true value that cannot be
    iterated is a [TypeError]. *)
Definition filter_constraints (constraints : value) : result (list value) :=
  match constraints with
  | VList l => Return (filter (λ c, isinstance c "CommentColumnConstraint" = true) l)
  | VStr _ => Return []
  | _ => Raise TypeError
  end.

(** Lines 129-134 on the value of the copy: when [constraints] is set, it
    is replaced by the list of its comment constraints. *)
Definition keep_comment_constraints (expression : value) : result value :=
  if truthy (get_arg expression "constraints")
  then filtered_constraints ← filter_constraints (get_arg expression "constraints");
       Return (set_arg "constraints" (VList filtered_constraints) expression)
  else Return expression.

(** [_columndef_sql(self, expression)] *)
Definition _columndef_sql (self : Generator) (σ : store) (expression : loc)
    : store * result string :=
  let '(σ, expression) := copy σ expression in
  match keep_comment_constraints (σ !!! expression) with
  | Raise e => (σ, Raise e)
  | Return filtered =>
      let σ := <[expression := filtered]> σ in
      let column := sql self (σ !!! expression) "this" in
      let kind := sql self (σ !!! expression) "kind" in
      let constraints :=
        expressions self (σ !!! expression) "constraints" (Some " ") true in
      match search_leading_alpha kind with
      | None => (σ, Raise AttributeError)
      | Some kind_str =>
          if bool_decide (kind_str ∉ VALID_DATABRICKS_TYPES)
          then (σ, Raise (UnsupportedError
                            (kind_str +:+ " is not a known Databricks type")))
          else if negb (nonempty constraints)
          then (σ, Return (column +:+ " " +:+ kind))
          else (σ, Return (column +:+ " " +:+ kind +:+ " " +:+ constraints))
      end
  end.

(** The call [try_to_number] casts (lines 184-186): [TRY_TO_NUMBER] of the
    value, with the format when there is one. *)
Definition try_to_number_call (self : Generator) (expression : value) : string :=
  let func_name := "TRY_TO_NUMBER" in
  let func_expr := func self func_name [get_arg expression "this"] in
  if truthy (get_arg expression "expression")
  then func self func_name
         [get_arg expression "this"; get_arg expression "expression"]
  else func_expr.

(** [try_to_number(self, expression)] *)
Definition try_to_number (self : Generator) (expression : value) : string :=
  let precision := sql self expression "precision" in
  let scale := sql self expression "scale" in
  let precision := if negb (nonempty precision) then of_int 38 else precision in
  let scale := if negb (nonempty scale) then of_int 0 else scale in
  let func_expr := try_to_number_call self expression in
  "CAST(" +:+ func_expr +:+ " AS DECIMAL(" +:+ precision +:+ ", " +:+ scale +:+ "))".

(** [Databricks.Generator.delete_sql(self, expression)] *)
Definition delete_sql (self : Generator) (expression : value) : string :=
  let this := sql self expression "this" in
  let using_ := sql self expression "using" in
  let where_ := sql self expression "where" in
  let returning := sql self expression "returning" in
  let limit := sql self expression "limit" in
  let tables := expressions self expression "tables" None false in
  let tables := if nonempty tables then " " +:+ tables else "" in
  let '(this, using_, where_) :=
    if nonempty using_
    then (this,
          (if nonempty using_ then " USING " +:+ using_ else ""),
          replace where_ "WHERE" "ON")
    else ((if nonempty this then "FROM " +:+ this else ""), using_, where_) in
  let expression_sql :=
    if RETURNING_END self
    then " " +:+ this +:+ using_ +:+ where_ +:+ returning +:+ limit
    else returning +:+ this +:+ where_ +:+ limit in
  if nonempty using_
  then prepend_ctes self expression
         ("MERGE" +:+ tables +:+ expression_sql +:+ " WHEN MATCHED THEN DELETE;")
  else prepend_ctes self expression ("DELETE" +:+ tables +:+ expression_sql).

End Databricks.

(** ** A small instance of the framework

    The render functions above are stated over any generator.  To run them
    on concrete trees this module supplies one: an expression renders as the
    text it holds in [this] (a string literal quoted, a [Where] behind its
    keyword), absent and false arguments render as the empty string, as the
    framework's [sql] does. *)

Module Sample.
Import Ast PyStr Databricks.

Definition this_text (v : value) : string :=
  match get_arg v "this" with
  | VStr s => s
  | _ => ""
  end.

Definition render (v : value) : string :=
  match v with
  | VStr s => s
  | VExp cls _ =>
      if String.eqb cls "Where" then " WHERE " +:+ this_text v
      else if String.eqb cls "Literal" && truthy (get_arg v "is_string")
      then "'" +:+ this_text v +:+ "'"
      else this_text v
  | _ => ""
  end.

Definition sample_sql (expression : value) (key : string) : string :=
  let v := get_arg expression key in
  if truthy v then render v else "".

Definition sample_expressions (expression : value) (key : string)
    (sep : option string) (flat : bool) : string :=
  join (default ", " sep)
       (render <$> match get_arg expression key with VList l => l | _ => [] end).

Definition is_none (v : value) : bool :=
  match v with VNone => true | _ => false end.

Definition sample_func (name : string) (args : list value) : string :=
  name +:+ "(" +:+
  join ", " (render <$> filter (λ v, is_none v = false) args) +:+ ")".

Definition sample_prepend_ctes (expression : value) (sql : string) : string :=
  let with_ := sample_sql expression "with" in
  if nonempty with_ then with_ +:+ " " +:+ sql else sql.

Definition sample_create_sql (σ : store) (expression : loc) : store * string :=
  let e := σ !!! expression in
  (σ, "CREATE" +:+
      (if truthy (get_arg e "replace") then " OR REPLACE" else "") +:+ " " +:+
      sample_sql e "kind" +:+
      (if truthy (get_arg e "exists") then " IF NOT EXISTS" else "") +:+ " " +:+
      sample_sql e "this").

Definition generator : Generator :=
  {| sql := sample_sql;
     expressions := sample_expressions;
     func := sample_func;
     prepend_ctes := sample_prepend_ctes;
     RETURNING_END := true;
     hive_create_sql := sample_create_sql |}.

(** [DELETE FROM t USING s WHERE t.id = s.id] *)
Definition delete_using : value :=
  VExp "Delete"
    {[ "this" := VExp "Table" {[ "this" := VStr "t" ]};
       "using" := VExp "Table" {[ "this" := VStr "s" ]};
       "where" := VExp "Where" {[ "this" := VStr "t.id = s.id" ]} ]}.

(** [DELETE FROM MERGE_LOG WHERE id = 1] *)
Definition delete_plain : value :=
  VExp "Delete"
    {[ "this" := VExp "Table" {[ "this" := VStr "MERGE_LOG" ]};
       "where" := VExp "Where" {[ "this" := VStr "id = 1" ]} ]}.

(** [CREATE TABLE IF NOT EXISTS t], as the parser builds it: the flags that
    were not written are present and false. *)
Definition create_if_not_exists : value :=
  VExp "Create"
    {[ "this" := VExp "Table" {[ "this" := VStr "t" ]};
       "kind" := VStr "TABLE";
       "exists" := VBool true;
       "replace" := VBool false ]}.

(** A column definition [a <kind>]. *)
Definition columndef (kind : string) : value :=
  VExp "ColumnDef"
    {[ "this" := VExp "Identifier" {[ "this" := VStr "a" ]};
       "kind" := VExp "DataType" {[ "this" := VStr kind ]} ]}.

(** A base scanner that gives up at offset [current] with exception [e],
    and a tokenizer that has not scanned anything yet. *)
Definition scan_raising (current : Z) (e : exn)
    (self : SnowTokenizer.Tokenizer string bool string)
    : SnowTokenizer.Tokenizer string bool string * option exn :=
  ({| SnowTokenizer.sql := SnowTokenizer.sql self;
      SnowTokenizer.size := SnowTokenizer.size self;
      SnowTokenizer._current := current;
      SnowTokenizer.tokens := SnowTokenizer.tokens self;
      SnowTokenizer.KEYWORDS := SnowTokenizer.KEYWORDS self;
      SnowTokenizer._KEYWORD_TRIE := SnowTokenizer._KEYWORD_TRIE self;
      SnowTokenizer.KEYWORD_TRIE := SnowTokenizer.KEYWORD_TRIE self |},
   Some e).

Definition tokenizer : SnowTokenizer.Tokenizer string bool string :=
  {| SnowTokenizer.sql := "";
     SnowTokenizer.size := 0;
     SnowTokenizer._current := 0;
     SnowTokenizer.tokens := [];
     SnowTokenizer.KEYWORDS := ∅;
     SnowTokenizer._KEYWORD_TRIE := ∅;
     SnowTokenizer.KEYWORD_TRIE := ∅ |}.

(** [tokenize] over that scanner, with no dialect keyword in the text. *)
Definition tokenize_raising (current : Z) (sql : string)
    : result (list string) :=
  (SnowTokenizer.tokenize (λ _ _, []) (λ _, ∅) (λ self, self)
     (scan_raising current (OtherError "TokenError")) tokenizer sql).2.

End Sample.

(** ** Paths through a keyword trie *)

Module TriePaths.
Import Trie.
Section paths.
Context {K : Type} `{Countable K} {V : Type}.

(** How deep the dicts of an entry nest. *)
Fixpoint depth (e : entry K V) : nat :=
  match e with
  | Terminal _ => 0
  | Mapping m => S (map_fold (λ _ x acc, depth x `max` acc) 0 m)
  end.

(** The dict reached from [trie] by following [path] key by key, the way a
    scanner walks a keyword trie; [None] when a key of the path is missing
    or does not hold a dict. *)
Fixpoint descend (path : list K) (trie : gmap K (entry K V))
    : option (gmap K (entry K V)) :=
  match path with
  | [] => Some trie
  | key :: path =>
      match trie !! key with
      | Some (Mapping m) => descend path m
      | _ => None
      end
  end.
End paths.
End TriePaths.

(** ** databricks.py: the type mapping and the aggregate renderer *)

Module DatabricksTypes.
Import Ast PyStr Databricks.

(** The members of [exp.DataType.Type] that databricks.py names; any other
    member stands by its name. *)
Inductive DataType_Type : Type :=
| VARCHAR | NVARCHAR | CHAR | TIMESTAMP | TIMESTAMPLTZ
| TINYINT | SMALLINT | BIGINT | DATETIME | VARIANT | FLOAT
| OtherType (name : string).

Section datatype.
(** [expression.this] of a data type node when it is a member of the
    enumeration ([None] when it is anything else, such as the name of a
    user-defined type), and the framework's [self.datatype_sql]. *)
Variable type_of : value → option DataType_Type.
Variable datatype_sql : value → string.

(** [_datatype_map(self, expression)] *)
Definition _datatype_map (expression : value) : string :=
  match type_of expression with
  | Some (VARCHAR | NVARCHAR | CHAR) => "STRING"
  | Some TIMESTAMP => "TIMESTAMP"
  | Some TIMESTAMPLTZ => "TIMESTAMP_LTZ"
  | _ => datatype_sql expression
  end.
End datatype.

(** [Databricks.Generator.TYPE_MAPPING]: the entries of the dict display
    after the spread of the base table, which they override. *)
Definition TYPE_MAPPING (base : DataType_Type → option string)
    (t : DataType_Type) : option string :=
  match t with
  | TINYINT => Some "TINYINT"
  | SMALLINT => Some "SMALLINT"
  | BIGINT => Some "BIGINT"
  | DATETIME => Some "TIMESTAMP"
  | VARCHAR => Some "STRING"
  | VARIANT => Some "STRING"
  | FLOAT => Some "DOUBLE"
  | _ => base t
  end.

(** The keys the dialect writes into the table. *)
Definition TYPE_MAPPING_keys : list DataType_Type :=
  [TINYINT; SMALLINT; BIGINT; DATETIME; VARCHAR; VARIANT; FLOAT].

(** [Databricks.Generator.arrayagg_sql(self, expression)] *)
Definition arrayagg_sql (self : Generator) (expression : value) : string :=
  func self "ARRAY_AGG"
    [ if isinstance (get_arg expression "this") "Order"
      then get_arg (get_arg expression "this") "this"
      else get_arg expression "this" ].

End DatabricksTypes.

(** ** A keyword finder and a trie builder to run the tokenizer with *)

Module SampleKeywords.
Import PyStr Trie.

(** A finder that knows one match: the variable declaration [var x = 1],
    found by the second pattern of [CUSTOM_TOKEN_MAP] in a statement that
    holds it. *)
Definition finditer (pattern string_ : string) : list string :=
  if String.eqb pattern "(?i)var\s+\w+\s+=\s+\w+?" && contains "var x = 1" string_
  then ["var x = 1"] else [].

(** The trie of one word: a dict per character, and a marker under the key
    [""] at the end. *)
Fixpoint word_trie (word : string) : gmap string (entry string bool) :=
  match word with
  | "" => {[ "" := Terminal true ]}
  | String c word => {[ String c "" := Mapping (word_trie word) ]}
  end.

Definition new_trie (words : list string) : gmap string (entry string bool) :=
  foldl (λ trie word, merge_trie trie (word_trie word)) ∅ words.

End SampleKeywords.

(** ** snowflake.py: the parser's search for the table alias *)

Module SnowParser.
Section parser.
(** The parser object, with what [_get_table_alias] uses of the framework's
    parser: [self._advance(times)], which moves the parser or raises;
    whether [self._match(TokenType.FROM, advance=False)] is true (a test
    that leaves the parser where it is); [self._curr.text] ([None] when
    there is no current token, where the attribute access fails); and
    [len(self._tokens)]. *)
Variable Parser : Type.
Variable _advance : Z → Parser → result Parser.
Variable _match_FROM : Parser → bool.
Variable _curr_text : Parser → option string.
Variable len_tokens : Parser → Z.

(** Lines 219-224: the alias is the text of the token two after [FROM], and
    of the token two further on when that one is a dot. *)
Definition alias_after_from (self_copy : Parser) : result (option string) :=
  self_copy ← _advance 2 self_copy;
  match _curr_text self_copy with
  | None => Raise AttributeError
  | Some table_alias =>
      if String.eqb table_alias "."
      then self_copy ← _advance 2 self_copy;
           match _curr_text self_copy with
           | None => Raise AttributeError
           | Some table_alias => Return (Some table_alias)
           end
      else Return (Some table_alias)
  end.

(** The loop of lines 213-225, [fuel] turns of it at most: [None] when the
    loop has not ended by then. *)
Fixpoint get_table_alias_while (fuel : nat) (self_copy : Parser)
    (run found_from : bool) (indx : Z) (table_alias : option string)
    : option (result (option string)) :=
  match fuel with
  | O => None
  | S fuel =>
      if run || found_from
      then
        match _advance 1 self_copy with
        | Raise e => Some (Raise e)
        | Return self_copy =>
            let indx := (indx + 1)%Z in
            let found_from := _match_FROM self_copy in
            let run :=
              if (indx =? len_tokens self_copy)%Z then false else run in
            if found_from
            then Some (alias_after_from self_copy)
            else get_table_alias_while fuel self_copy run found_from indx
                   table_alias
        end
      else Some (Return table_alias)
  end.

(** [Snow.Parser._get_table_alias(self)].  The function works on a deep copy
    of the parser, so the parser itself is as it was. *)
Definition _get_table_alias (fuel : nat) (self : Parser)
    : option (result (option string)) :=
  let self_copy := self in
  let found_from := _match_FROM self_copy in
  get_table_alias_while fuel self_copy true found_from 0 None.
End parser.
End SnowParser.

(** ** A token cursor to run the alias search with

    The tokens by their text, and the index of the current one.  Moving the
    cursor reads the token before the new index, which fails when there is
    none (an [IndexError]); there is no current token from the end of the
    list on; a token is a [FROM] when that is its text. *)

Module SampleParser.

Definition Parser : Type := list string * Z.

Definition curr (self : Parser) : option string :=
  if (self.2 <? 0)%Z then None else self.1 !! Z.to_nat self.2.

Definition _advance (times : Z) (self : Parser) : result Parser :=
  let index := (self.2 + times)%Z in
  if (0 <? index)%Z && (Z.of_nat (length self.1) <=? index - 1)%Z
  then Raise (OtherError "IndexError")
  else Return (self.1, index).

Definition _match_FROM (self : Parser) : bool :=
  match curr self with
  | Some text => String.eqb text "FROM"
  | None => false
  end.

Definition len_tokens (self : Parser) : Z := Z.of_nat (length self.1).


(** [SELECT c:a], the cursor on the colon. *)
Definition select_only : Parser := (["SELECT"; "c"; ":"; "a"], 2%Z).

End SampleParser.

(* ===================================================================== *)
(** * Part II: the properties                                              *)
(* ===================================================================== *)

(** ** Strings *)

Module PyStrFacts.
Import PyStr.

Lemma app_cons c s t : String c s +:+ t = String c (s +:+ t).
Proof. reflexivity. Qed.

Lemma app_nil_l t : "" +:+ t = t.
Proof. reflexivity. Qed.

Lemma app_assoc s t u : (s +:+ t) +:+ u = s +:+ t +:+ u.
Proof. induction s as [|c s IH]; [done|]. rewrite !app_cons. by f_equal. Qed.

Lemma prefix_nil s : String.prefix "" s = true.
Proof. by destruct s. Qed.

Lemma prefix_cons a s1 b s2 :
  String.prefix (String a s1) (String b s2)
  = Ascii.eqb a b && String.prefix s1 s2.
Proof.
  change (String.prefix (String a s1) (String b s2))
    with (if ascii_dec a b then String.prefix s1 s2 else false).
  destruct (ascii_dec a b) as [->|Hne].
  - by rewrite Ascii.eqb_refl.
  - apply Ascii.eqb_neq in Hne. by rewrite Hne.
Qed.

Lemma prefix_app sub b : String.prefix sub (sub +:+ b) = true.
Proof.
  induction sub as [|c sub IH].
  - by destruct b.
  - rewrite app_cons. simpl. by destruct (ascii_dec c c).
Qed.

Lemma prefix_app_l sub s b :
  String.prefix sub s = true → String.prefix sub (s +:+ b) = true.
Proof.
  revert s. induction sub as [|c sub IH]; intros s Hs.
  - by destruct (s +:+ b).
  - destruct s as [|d s]; [done|]. rewrite app_cons. simpl in *.
    destruct (ascii_dec c d); [by apply IH | done].
Qed.

Lemma contains_cons sub c s :
  contains sub (String c s) = String.prefix sub (String c s) || contains sub s.
Proof. reflexivity. Qed.

Lemma contains_app_l sub s b :
  contains sub s = true → contains sub (s +:+ b) = true.
Proof.
  induction s as [|c s IH]; intros Hs.
  - destruct sub; [|done]. rewrite app_nil_l. by destruct b.
  - rewrite contains_cons in Hs. rewrite app_cons, contains_cons.
    apply orb_true_iff in Hs as [Hs|Hs]; apply orb_true_iff; [left|right; auto].
    change (String c (s +:+ b)) with (String c s +:+ b). by apply prefix_app_l.
Qed.

Lemma contains_app_r sub a s :
  contains sub s = true → contains sub (a +:+ s) = true.
Proof.
  intros Hs. induction a as [|c a IH]; [done|].
  rewrite app_cons, contains_cons, IH. apply orb_true_r.
Qed.

Lemma contains_prefix sub s : String.prefix sub s = true → contains sub s = true.
Proof.
  intros Hs. destruct s as [|c s].
  - unfold contains. by rewrite Hs.
  - by rewrite contains_cons, Hs.
Qed.

(** [sub] occurs in any string that is written around it. *)
Lemma contains_intro sub a b : contains sub (a +:+ sub +:+ b) = true.
Proof. apply contains_app_r, contains_prefix, prefix_app. Qed.

Lemma endswith_refl s : endswith s s = true.
Proof.
  assert (String.eqb s s = true) as Hs by apply String.eqb_refl.
  destruct s; unfold endswith; fold endswith; by rewrite Hs.
Qed.

Lemma endswith_app a suf : endswith (a +:+ suf) suf = true.
Proof.
  induction a as [|c a IH]; [apply endswith_refl|].
  rewrite app_cons.
  change (endswith (String c (a +:+ suf)) suf)
    with (String.eqb (String c (a +:+ suf)) suf || endswith (a +:+ suf) suf).
  rewrite IH. apply orb_true_r.
Qed.

Lemma endswith_app_r a s suf :
  endswith s suf = true → endswith (a +:+ s) suf = true.
Proof.
  intros Hs. induction a as [|c a IH]; [done|].
  rewrite app_cons.
  change (endswith (String c (a +:+ s)) suf)
    with (String.eqb (String c (a +:+ s)) suf || endswith (a +:+ s) suf).
  rewrite IH. apply orb_true_r.
Qed.

(** The replacement of the keyword that opens a rendered WHERE clause. *)
Lemma replace_where_keyword cond :
  replace (" WHERE " +:+ cond) "WHERE" "ON" = " ON " +:+ replace cond "WHERE" "ON".
Proof. reflexivity. Qed.

Lemma prefix_MERGE_before_DELETE x post :
  String.prefix "MERGE" (x +:+ "DELETE" +:+ post) = true →
  String.prefix "MERGE" x = true.
Proof.
  change ("DELETE" +:+ post)
    with (String "D" (String "E" (String "L" (String "E" (String "T"
            (String "E" post)))))).
  destruct x as [|c1 [|c2 [|c3 [|c4 [|c5 x]]]]];
    rewrite ?app_cons, ?app_nil_l, ?prefix_cons, ?prefix_nil; intros Hp;
    [exfalso; repeat (apply andb_true_iff in Hp as [? Hp]); try done;
     repeat match goal with
            | H : Ascii.eqb _ _ = true |- _ =>
                apply Ascii.eqb_eq in H; try discriminate H
            end ..
    | exact Hp].
Qed.

(** No occurrence of [MERGE] straddles a [DELETE] keyword: one that is found
    in a text around the keyword lies before it or after it. *)
Lemma contains_MERGE_around_DELETE pre post :
  contains "MERGE" (pre +:+ "DELETE" +:+ post) = true →
  contains "MERGE" pre = true ∨ contains "MERGE" post = true.
Proof.
  induction pre as [|c pre IH].
  - rewrite app_nil_l. intros Hc. right.
    change ("DELETE" +:+ post)
      with (String "D" (String "E" (String "L" (String "E" (String "T"
              (String "E" post)))))) in Hc.
    rewrite !contains_cons in Hc.
    repeat (apply orb_true_iff in Hc as [Hc|Hc]; [by simpl in Hc|]). exact Hc.
  - rewrite app_cons, contains_cons. intros Hc.
    apply orb_true_iff in Hc as [Hc|Hc].
    + left. apply contains_prefix.
      apply (prefix_MERGE_before_DELETE (String c pre) post). exact Hc.
    + destruct (IH Hc) as [Hpre|Hpost]; [left|by right].
      rewrite contains_cons, Hpre. apply orb_true_r.
Qed.

End PyStrFacts.

(** ** The keyword trie *)

Module TrieFacts.
Import Trie.
Section trie.
Context {K : Type} `{Countable K} {V : Type}.
Implicit Types (p n : gmap K (entry K V)) (k : K).

Lemma merge_both_mapping (pm nm : gmap K (entry K V)) :
  merge_both (Mapping pm) (Mapping nm) = Mapping (merge_trie pm nm).
Proof. reflexivity. Qed.

(** The loop body of [merge_trie], key by key. *)
Lemma merge_trie_lookup p n k :
  merge_trie p n !! k =
    match p !! k, n !! k with
    | Some x, Some y =>
        Some (if isinstance_dict x && isinstance_dict y
              then merge_both x y
              else if isinstance_dict x then x else y)
    | Some x, None => Some x
    | None, o => o
    end.
Proof.
  unfold merge_trie. rewrite lookup_union_with.
  destruct (p !! k) as [[v|pm]|], (n !! k) as [[w|nm]|]; reflexivity.
Qed.
(** C2 (as amended): [merge_trie] is the deep union of the two tries.  A key
    of one trie only keeps that trie's value; on a key of both, two nested
    mappings are merged recursively, a nested mapping wins over a terminal
    value of the other side, and of two terminal values the one of the
    second trie ([new_trie]) is kept. *)
Theorem merge_trie_deep_union p n k :
  merge_trie p n !! k =
    match p !! k, n !! k with
    | Some x, None => Some x
    | None, o => o
    | Some (Mapping pm), Some (Mapping nm) => Some (Mapping (merge_trie pm nm))
    | Some (Mapping pm), Some (Terminal _) => Some (Mapping pm)
    | Some (Terminal _), Some (Mapping nm) => Some (Mapping nm)
    | Some (Terminal _), Some (Terminal w) => Some (Terminal w)
    end.
Proof.
  rewrite merge_trie_lookup.
  destruct (p !! k) as [[v|pm]|], (n !! k) as [[w|nm]|]; reflexivity.
Qed.

Lemma merge_trie_disjoint_comm p n :
  dom p ## dom n → merge_trie p n = merge_trie n p.
Proof.
  intros Hdisj. apply map_eq. intros k. rewrite !merge_trie_lookup.
  destruct (p !! k) as [x|] eqn:Hp, (n !! k) as [y|] eqn:Hn; try reflexivity.
  exfalso. apply (Hdisj k); apply elem_of_dom; eauto.
Qed.

(** C3: on tries with disjoint key sets [merge_trie] commutes; and where the
    two tries overlap only on keys that hold a nested mapping on both sides,
    the merged trie is determined key by key: the recursive merge of the two
    sub-tries on a common key, the only value there is on any other key. *)
Theorem merge_trie_disjoint_comm_and_overlap p n :
  (dom p ## dom n → merge_trie p n = merge_trie n p) ∧
  ((∀ k x y, p !! k = Some x → n !! k = Some y →
             isinstance_dict x = true ∧ isinstance_dict y = true) →
   ∀ k, merge_trie p n !! k =
          match p !! k, n !! k with
          | Some (Mapping pm), Some (Mapping nm) =>
              Some (Mapping (merge_trie pm nm))
          | Some x, _ => Some x
          | None, o => o
          end).
Proof.
  split; [apply merge_trie_disjoint_comm|].
  intros Hover k. rewrite merge_trie_lookup.
  destruct (p !! k) as [x|] eqn:Hp, (n !! k) as [y|] eqn:Hn; try reflexivity.
  - destruct (Hover k x y Hp Hn) as [Hx Hy].
    destruct x, y; simpl in *; try discriminate. reflexivity.
  - destruct x; reflexivity.
Qed.
End trie.

(** C2, the claim as stated fails: when both tries hold a terminal value at
    a key, the merged trie holds the value of the second trie, not the value
    of the parent trie. *)
Lemma merge_trie_terminal_collision_keeps_new :
  merge_trie (K:=string) (V:=string)
    {[ "A" := Terminal "PROCEDURE" ]} {[ "A" := Terminal "VAR" ]} !! "A"
  = Some (Terminal "VAR")
  ∧ Some (Terminal (K:=string) "VAR") ≠ Some (Terminal "PROCEDURE").
Proof. split; [reflexivity | discriminate]. Qed.

(** C3 at two concrete tries: disjoint top-level keys on the one hand, and a
    single common key with nested mappings on both sides on the other. *)
Lemma merge_trie_disjoint_comm_and_overlap_witness :
  (merge_trie (K:=string) (V:=string)
     {[ "V" := Mapping {[ "0" := Terminal "VAR" ]} ]}
     {[ "C" := Mapping {[ "0" := Terminal "PROCEDURE" ]} ]}
   = merge_trie
     {[ "C" := Mapping {[ "0" := Terminal "PROCEDURE" ]} ]}
     {[ "V" := Mapping {[ "0" := Terminal "VAR" ]} ]})
  ∧ merge_trie (K:=string) (V:=string)
      {[ "V" := Mapping {[ "A" := Terminal "x" ]} ]}
      {[ "V" := Mapping {[ "B" := Terminal "y" ]} ]} !! "V"
    = Some (Mapping (merge_trie {[ "A" := Terminal "x" ]}
                                {[ "B" := Terminal "y" ]})).
Proof.
  split.
  - apply (proj1 (merge_trie_disjoint_comm_and_overlap _ _)).
    rewrite !dom_singleton_L. apply disjoint_singleton_l.
    rewrite elem_of_singleton. discriminate.
  - rewrite (proj2 (merge_trie_disjoint_comm_and_overlap _ _)).
    + reflexivity.
    + intros k x y Hx Hy.
      apply lookup_singleton_Some in Hx as [_ <-].
      apply lookup_singleton_Some in Hy as [_ <-]. split; reflexivity.
Defined.
End TrieFacts.

(** ** The try-to-number builder *)

Module SnowflakeFacts.
Import Ast PyStr PyStrFacts Snowflake.

Section builders.
Variable repr_args : list value → string.

Lemma trytonumber_msg_format args :
  contains "`format` is required" (trytonumber_msg repr_args args) = true.
Proof. unfold trytonumber_msg. do 2 apply contains_app_r. reflexivity. Qed.

Lemma trytonumber_msg_precision_scale args :
  contains "`precision` and `scale` both are required"
           (trytonumber_msg repr_args args) = true.
Proof. unfold trytonumber_msg. do 2 apply contains_app_r. reflexivity. Qed.

(** A call that is not rejected and does not have four arguments is built
    as the two-argument form, from the first two positions. *)
Lemma parse_trytonumber_other_arity args :
  length args ≠ 1 → length args ≠ 3 → length args ≠ 4 →
  _parse_trytonumber repr_args args
  = Return (TryToNumber2 (seq_get args 0) (seq_get args 1)).
Proof.
  intros H1 H3 H4. unfold _parse_trytonumber.
  rewrite !bool_decide_eq_false_2 by done. reflexivity.
Qed.

(** C4 (as amended): the builder of the try-to-number family.  A call with
    exactly one or exactly three arguments raises a parse error whose
    message says that [format] is required and that [precision] and [scale]
    are both required when given; two arguments build the node
    [TryToNumber(this=value, expression=format)], four build
    [TryToNumber(this=value, expression=format, precision=.., scale=..)].
    No other number of arguments is refused: the call is built from the
    first two positions, with [None] where there is no argument.  The three
    names of the family are registered with this builder. *)
Theorem parse_trytonumber_arity :
  (∀ args, length args = 1 ∨ length args = 3 →
     ∃ msg, _parse_trytonumber repr_args args = Raise (ParseError msg)
            ∧ contains "`format` is required" msg = true
            ∧ contains "`precision` and `scale` both are required" msg = true)
  ∧ (∀ value format,
       _parse_trytonumber repr_args [value; format]
       = Return (VExp "TryToNumber"
                   {[ "this" := value; "expression" := format ]}))
  ∧ (∀ value format precision scale,
       _parse_trytonumber repr_args [value; format; precision; scale]
       = Return (VExp "TryToNumber"
                   {[ "this" := value; "expression" := format;
                      "precision" := precision; "scale" := scale ]}))
  ∧ (∀ args, length args ≠ 1 → length args ≠ 3 → length args ≠ 4 →
       _parse_trytonumber repr_args args
       = Return (VExp "TryToNumber"
                   {[ "this" := seq_get args 0;
                      "expression" := seq_get args 1 ]}))
  ∧ (∀ name, name ∈ ["TRY_TO_DECIMAL"; "TRY_TO_NUMBER"; "TRY_TO_NUMERIC"] →
       FUNCTIONS repr_args name = Some (_parse_trytonumber repr_args)).
Proof.
  split; [|split; [|split; [|split]]].
  - intros args Hlen. exists (trytonumber_msg repr_args args).
    split; [|split].
    + unfold _parse_trytonumber. destruct Hlen as [-> | ->]; reflexivity.
    + apply trytonumber_msg_format.
    + apply trytonumber_msg_precision_scale.
  - reflexivity.
  - reflexivity.
  - intros args H1 H3 H4.
    rewrite (parse_trytonumber_other_arity args H1 H3 H4). reflexivity.
  - intros name Hname. unfold FUNCTIONS.
    rewrite bool_decide_eq_true_2; [reflexivity | exact Hname].
Qed.
End builders.

(** C4, the claim as stated fails: the builder does not require two or four
    arguments.  [TRY_TO_NUMBER('1', '9', 2, 1, 0)] has five and is built,
    from its first two; [TRY_TO_NUMBER()] has none and is built, with no
    value and no format. *)
Lemma parse_trytonumber_five_or_no_arguments_build :
  _parse_trytonumber (λ _, "")
    [Literal "1" true; Literal "9" true; Literal "2" false;
     Literal "1" false; Literal "0" false]
  = Return (VExp "TryToNumber"
              {[ "this" := Literal "1" true;
                 "expression" := Literal "9" true ]})
  ∧ _parse_trytonumber (λ _, "") []
    = Return (VExp "TryToNumber"
                {[ "this" := VNone; "expression" := VNone ]}).
Proof. split; reflexivity. Qed.

(** C4 on [TRY_TO_NUMBER('1.5')]: one argument, a parse error that asks for
    the format. *)
Lemma parse_trytonumber_arity_witness :
  ∃ msg, _parse_trytonumber (λ _, "[Literal(this=1.5, is_string=True)]")
           [Literal "1.5" true] = Raise (ParseError msg)
         ∧ contains "`format` is required" msg = true
         ∧ contains "`precision` and `scale` both are required" msg = true.
Proof.
  apply (proj1 (parse_trytonumber_arity _)). left. reflexivity.
Defined.
End SnowflakeFacts.

(** ** The approximate-percentile builder *)

Module PrestoFacts.
Import Ast PyStr Presto.

Section builders.
Variable float_of_str : string → option float.
Variable str_of : value → string.
Variable from_arg_list : list value → value.


Lemma build_approx_percentile_3 this quantile arg2 :
  _build_approx_percentile float_of_str str_of from_arg_list [this; quantile; arg2]
  = except_ValueError
      (n ← accuracy float_of_str arg2;
       Return (VExp "ApproxQuantile"
                 {[ "this" := this; "quantile" := quantile;
                    "accuracy" := Literal (PyStr.of_int n) false ]}))
      (Raise (ParseError (accuracy_msg str_of arg2))).
Proof. reflexivity. Qed.

Lemma build_approx_percentile_4 this weight quantile arg3 :
  _build_approx_percentile float_of_str str_of from_arg_list
    [this; weight; quantile; arg3]
  = except_ValueError
      (n ← accuracy float_of_str arg3;
       Return (VExp "ApproxQuantile"
                 {[ "this" := this; "weight" := weight; "quantile" := quantile;
                    "accuracy" := Literal (PyStr.of_int n +:+ " ") false ]}))
      (Raise (ParseError (accuracy_msg str_of arg3))).
Proof. reflexivity. Qed.

End builders.


(** The product is truncated, not rounded: [(1/0.15) * 100] is 666.66..., and
    the accuracy is 666. *)
Lemma accuracy_truncates :
  accuracy PyFloat.of_decimal (Literal "0.15" false) = Return 666%Z.
Proof. vm_compute. reflexivity. Qed.

(** A literal that is not a number is a parse error; a zero is a division by
    zero that the builder lets through. *)
Lemma build_approx_percentile_errors :
  _build_approx_percentile PyFloat.of_decimal (λ _, "'abc'") (λ _, VNone)
    [VNone; VNone; Literal "abc" true]
  = Raise (ParseError
      "Expected a string representation of a number for argument 2, but got 'abc'")
  ∧ _build_approx_percentile PyFloat.of_decimal (λ _, "0") (λ _, VNone)
      [VNone; VNone; Literal "0" false]
    = Raise ZeroDivisionError.
Proof. split; vm_compute; reflexivity. Qed.

End PrestoFacts.

(** ** The tokenizer's error path *)

Module TokenizerFacts.
Import PyStr SnowTokenizer.

Section tokenizer.
Context {K : Type} `{Countable K} {V : Type} {token : Type}.
Variable finditer : string → string → list string.
Variable new_trie : list string → gmap K (Trie.entry K V).
Variable reset : Tokenizer K V token → Tokenizer K V token.
Variable _scan : Tokenizer K V token → Tokenizer K V token * option exn.

(** When the base scan raises, whatever the exception, [tokenize] raises a
    parse error that quotes [context]. *)
Lemma tokenize_scan_raises self sql st e :
  _scan (prepare finditer new_trie reset self sql) = (st, Some e) →
  tokenize finditer new_trie reset _scan self sql
  = (st, Raise (ParseError ("Error tokenizing '" +:+ context st +:+ "'"))).
Proof. intros Hscan. unfold tokenize. rewrite Hscan. reflexivity. Qed.

(** A token list is returned only when the scan finished. *)
Lemma tokenize_returns_after_scan self sql toks :
  (tokenize finditer new_trie reset _scan self sql).2 = Return toks →
  ∃ st, _scan (prepare finditer new_trie reset self sql) = (st, None)
        ∧ toks = tokens st.
Proof.
  unfold tokenize.
  destruct (_scan _) as [st [e|]]; simpl; intros Hret; [discriminate|].
  exists st. by inversion Hret.
Qed.

(** The quoted text starts at most 50 characters before the offset; where
    the statement ends within 50 characters after the offset, it stops at
    index [size - 1], one short of the end of the statement. *)
Lemma context_near_end (st : Tokenizer K V token) :
  (size st ≤ _current st + 50)%Z →
  context st
  = slice (sql st) (Z.max (_current st - 50) 0) (size st - 1).
Proof.
  intros Hend. unfold context.
  rewrite (proj2 (Z.ltb_ge (_current st + 50) (size st))) by lia.
  f_equal. destruct (Z.ltb_spec 0 (_current st - 50)); lia.
Qed.

Lemma context_inside (st : Tokenizer K V token) :
  (_current st + 50 < size st)%Z →
  context st
  = slice (sql st) (Z.max (_current st - 50) 0) (_current st + 50).
Proof.
  intros Hend. unfold context.
  rewrite (proj2 (Z.ltb_lt (_current st + 50) (size st))) by lia.
  f_equal. destruct (Z.ltb_spec 0 (_current st - 50)); lia.
Qed.
End tokenizer.

(** At the statement [SELECT 'abc] (an unterminated string, 11 characters)
    with the scan giving up at its end, the parse error quotes [SELECT 'ab]:
    where the statement ends within 50 characters after the offset, the
    window is cut at index [size - 1]. *)
Lemma tokenize_error_context_drops_last_character :
  Sample.tokenize_raising 11 "SELECT 'abc"
  = Raise (ParseError "Error tokenizing 'SELECT 'ab'").
Proof. vm_compute. reflexivity. Qed.

(** The same at every offset the scan can have reached. *)
Lemma tokenize_error_context_any_offset (current : Z) :
  (0 ≤ current ≤ 12)%Z →
  Sample.tokenize_raising current "SELECT 'abc"
  = Raise (ParseError "Error tokenizing 'SELECT 'ab'").
Proof.
  intros Hcur. unfold Sample.tokenize_raising.
  erewrite tokenize_scan_raises by reflexivity.
  simpl. rewrite context_near_end by (simpl; lia).
  simpl. replace (Z.max (current - 50) 0) with 0%Z by lia.
  reflexivity.
Qed.

(** On a statement of more than 50 characters with the failure at its
    start, the window is the first 50 characters. *)
Lemma tokenize_error_context_long_statement :
  Sample.tokenize_raising 0
    "SELECT a, b, c, d, e, f, g, h, i, j, k, l, m, n, o, p FROM t WHERE x = 'abc"
  = Raise (ParseError
      "Error tokenizing 'SELECT a, b, c, d, e, f, g, h, i, j, k, l, m, n, o'").
Proof. vm_compute. reflexivity. Qed.
End TokenizerFacts.

(** ** The generator *)

Module DatabricksFacts.
Import Ast PyStr PyStrFacts Databricks.

Lemma nonempty_true s : s ≠ "" → nonempty s = true.
Proof. intros Hs. unfold nonempty. by apply negb_true_iff, String.eqb_neq. Qed.

(** *** Copies *)

Lemma copy_spec (σ : store) l :
  ∃ l', copy σ l = (<[l' := σ !!! l]> σ, l') ∧ σ !! l' = None.
Proof.
  unfold store, loc in *.
  exists (fresh (dom σ)). split; [reflexivity|].
  apply not_elem_of_dom, is_fresh.
Qed.




(** *** CREATE *)



(** [CREATE TABLE IF NOT EXISTS t]: the copy that is rendered has lost
    [exists], which was true, and the statement comes out as
    [CREATE TABLE t]; [replace], present with a false value, is still in the
    copy's dict.  The original keeps both. *)
Lemma format_create_sql_keeps_false_flag :
  (_format_create_sql Sample.generator {[ 1%positive := Sample.create_if_not_exists ]}
     1%positive).1
  = {[ 1%positive := Sample.create_if_not_exists;
       2%positive := VExp "Create"
                       {[ "this" := VExp "Table" {[ "this" := VStr "t" ]};
                          "kind" := VStr "TABLE";
                          "replace" := VBool false ]} ]}
  ∧ (_format_create_sql Sample.generator
       {[ 1%positive := Sample.create_if_not_exists ]} 1%positive).2
    = "CREATE TABLE t".
Proof. split; vm_compute; reflexivity. Qed.


(** *** Column definitions *)

(** The result of [_columndef_sql] on a node whose constraints can be
    filtered, in terms of the text rendered for the filtered copy. *)
Lemma columndef_sql_result (self : Generator) (σ : store) l e e' :
  σ !! l = Some e → keep_comment_constraints e = Return e' →
  (_columndef_sql self σ l).2 =
    match search_leading_alpha (sql self e' "kind") with
    | None => Raise AttributeError
    | Some kind_str =>
        if bool_decide (kind_str ∉ VALID_DATABRICKS_TYPES)
        then Raise (UnsupportedError
                      (kind_str +:+ " is not a known Databricks type"))
        else if negb (nonempty (expressions self e' "constraints" (Some " ") true))
        then Return (sql self e' "this" +:+ " " +:+ sql self e' "kind")
        else Return (sql self e' "this" +:+ " " +:+ sql self e' "kind" +:+ " "
                     +:+ expressions self e' "constraints" (Some " ") true)
    end.
Proof.
  intros Hl Hkeep.
  destruct (copy_spec σ l) as (l' & Hcopy & _). unfold store, loc in *.
  unfold _columndef_sql. rewrite Hcopy. cbv beta iota zeta.
  unfold store, loc in *.
  rewrite (lookup_total_correct _ _ _ Hl), lookup_total_insert_eq, Hkeep.
  rewrite lookup_total_insert_eq.
  destruct (search_leading_alpha _) as [kind_str|]; [|reflexivity].
  destruct (bool_decide _); [reflexivity|].
  destruct (negb _); reflexivity.
Qed.

Lemma search_leading_alpha_None kind :
  (∀ c rest, kind = String c rest → is_alpha c = false) →
  search_leading_alpha kind = None.
Proof.
  intros Hkind. unfold search_leading_alpha.
  destruct kind as [|c rest]; [reflexivity|].
  simpl. by rewrite (Hkind c rest eq_refl).
Qed.

(** C8: when the leading alphabetic portion of the rendered type is not one
    of [VALID_DATABRICKS_TYPES], [_columndef_sql] raises an unsupported error
    whose message names that portion; when it is one of them, the column
    definition is rendered. *)
Theorem columndef_sql_validates_type
    (self : Generator) (σ : store) l e e' kind_str :
  σ !! l = Some e → keep_comment_constraints e = Return e' →
  search_leading_alpha (sql self e' "kind") = Some kind_str →
  (kind_str ∉ VALID_DATABRICKS_TYPES →
     ∃ msg, (_columndef_sql self σ l).2 = Raise (UnsupportedError msg)
            ∧ msg = kind_str +:+ " is not a known Databricks type"
            ∧ startswith msg kind_str = true)
  ∧ (kind_str ∈ VALID_DATABRICKS_TYPES →
     ∃ out, (_columndef_sql self σ l).2 = Return out).
Proof.
  intros Hl Hkeep Hkind.
  rewrite (columndef_sql_result self σ l e e' Hl Hkeep), Hkind.
  split; intros Hvalid.
  - rewrite bool_decide_eq_true_2 by done. eexists. split; [reflexivity|].
    split; [reflexivity|]. apply prefix_app.
  - rewrite bool_decide_eq_false_2 by (intros Hn; by apply Hn).
    destruct (negb _); eexists; reflexivity.
Qed.

(** C8 at a column [a FOOBAR]. *)
Lemma columndef_sql_validates_type_witness :
  ∃ msg, (_columndef_sql Sample.generator
            {[ 1%positive := Sample.columndef "FOOBAR" ]} 1%positive).2
         = Raise (UnsupportedError msg)
         ∧ msg = "FOOBAR" +:+ " is not a known Databricks type"
         ∧ startswith msg "FOOBAR" = true.
Proof.
  assert (({[ 1%positive := Sample.columndef "FOOBAR" ]} : store) !! 1%positive
          = Some (Sample.columndef "FOOBAR")) as Hl by reflexivity.
  assert (keep_comment_constraints (Sample.columndef "FOOBAR")
          = Return (Sample.columndef "FOOBAR")) as Hkeep by reflexivity.
  assert (search_leading_alpha
            (sql Sample.generator (Sample.columndef "FOOBAR") "kind")
          = Some "FOOBAR") as Hkind by reflexivity.
  apply (proj1 (columndef_sql_validates_type _ _ _ _ _ _ Hl Hkeep Hkind)).
  apply (bool_decide_eq_false_1 ("FOOBAR" ∈ VALID_DATABRICKS_TYPES)).
  vm_compute. reflexivity.
Defined.

(** A type of the allow-list, with its parameters, is rendered. *)
Lemma columndef_sql_decimal :
  (_columndef_sql Sample.generator
     {[ 1%positive := Sample.columndef "DECIMAL(19, 4)" ]} 1%positive).2
  = Return "a DECIMAL(19, 4)".
Proof. vm_compute. reflexivity. Qed.

(** C10: when the rendered type does not begin with an ASCII letter, the
    search for the leading alphabetic portion finds nothing and
    [_columndef_sql] fails with an attribute error; the unsupported error is
    not what it raises. *)
Theorem columndef_sql_no_leading_letter
    (self : Generator) (σ : store) l e e' :
  σ !! l = Some e → keep_comment_constraints e = Return e' →
  (∀ c rest, sql self e' "kind" = String c rest → is_alpha c = false) →
  search_leading_alpha (sql self e' "kind") = None
  ∧ (_columndef_sql self σ l).2 = Raise AttributeError
  ∧ ∀ msg, (_columndef_sql self σ l).2 ≠ Raise (UnsupportedError msg).
Proof.
  intros Hl Hkeep Hkind.
  apply search_leading_alpha_None in Hkind.
  rewrite (columndef_sql_result self σ l e e' Hl Hkeep), Hkind.
  split; [reflexivity|]. split; [reflexivity|]. intros msg. discriminate.
Qed.

(** C10 at a column whose type renders as the empty string. *)
Lemma columndef_sql_no_leading_letter_witness :
  search_leading_alpha
    (sql Sample.generator (Sample.columndef "") "kind") = None
  ∧ (_columndef_sql Sample.generator
       {[ 1%positive := Sample.columndef "" ]} 1%positive).2
    = Raise AttributeError
  ∧ ∀ msg, (_columndef_sql Sample.generator
              {[ 1%positive := Sample.columndef "" ]} 1%positive).2
           ≠ Raise (UnsupportedError msg).
Proof.
  assert (({[ 1%positive := Sample.columndef "" ]} : store) !! 1%positive
          = Some (Sample.columndef "")) as Hl by reflexivity.
  assert (keep_comment_constraints (Sample.columndef "")
          = Return (Sample.columndef "")) as Hkeep by reflexivity.
  apply (columndef_sql_no_leading_letter _ _ _ _ _ Hl Hkeep).
  intros c rest Hkind. vm_compute in Hkind. discriminate Hkind.
Defined.

(** The same for a type that begins with a digit. *)
Lemma columndef_sql_leading_digit :
  (_columndef_sql Sample.generator
     {[ 1%positive := Sample.columndef "2INT" ]} 1%positive).2
  = Raise AttributeError.
Proof. vm_compute. reflexivity. Qed.

(** *** TRY_TO_NUMBER *)

(** C5: a TryToNumber node without [precision] and [scale] renders as the
    cast of the [TRY_TO_NUMBER] call to [DECIMAL(38, 0)]; when both are
    there, with a rendered text, the cast is to [DECIMAL(precision, scale)].
    The framework's [sql] renders an argument that is absent as the empty
    string. *)
Theorem try_to_number_decimal_cast (self : Generator) (expression : value) :
  (∀ e key, args_of e !! key = None → sql self e key = "") →
  (args_of expression !! "precision" = None →
   args_of expression !! "scale" = None →
     try_to_number self expression
     = "CAST(" +:+ try_to_number_call self expression
       +:+ " AS DECIMAL(38, 0))")
  ∧ (sql self expression "precision" ≠ "" →
     sql self expression "scale" ≠ "" →
       try_to_number self expression
       = "CAST(" +:+ try_to_number_call self expression
         +:+ " AS DECIMAL(" +:+ sql self expression "precision"
         +:+ ", " +:+ sql self expression "scale" +:+ "))")
  ∧ try_to_number_call self expression
    = func self "TRY_TO_NUMBER"
        (get_arg expression "this" ::
         if truthy (get_arg expression "expression")
         then [get_arg expression "expression"] else []).
Proof.
  intros Hsql. split; [|split].
  - intros Hp Hs. unfold try_to_number.
    rewrite (Hsql _ _ Hp), (Hsql _ _ Hs). reflexivity.
  - intros Hp Hs. unfold try_to_number.
    rewrite (nonempty_true _ Hp), (nonempty_true _ Hs). reflexivity.
  - unfold try_to_number_call.
    destruct (truthy (get_arg expression "expression")); reflexivity.
Qed.

Lemma sample_sql_absent e key :
  args_of e !! key = None → sql Sample.generator e key = "".
Proof.
  intros Hkey. simpl. unfold Sample.sample_sql, get_arg.
  rewrite Hkey. reflexivity.
Qed.

(** C5 at [TRY_TO_NUMBER('1.5', '9.9')]. *)
Lemma try_to_number_decimal_cast_witness :
  try_to_number Sample.generator
    (Snowflake.TryToNumber2 (Literal "1.5" true) (Literal "9.9" true))
  = "CAST(" +:+ try_to_number_call Sample.generator
                  (Snowflake.TryToNumber2 (Literal "1.5" true)
                                          (Literal "9.9" true))
    +:+ " AS DECIMAL(38, 0))".
Proof.
  apply (proj1 (try_to_number_decimal_cast Sample.generator _
                  sample_sql_absent)); reflexivity.
Defined.

(** [TRY_TO_NUMBER('1.5','9.9',3,1)] and [TRY_TO_NUMBER('1.5','9.9')],
    rendered. *)
Lemma try_to_number_examples :
  try_to_number Sample.generator
    (Snowflake.TryToNumber4 (Literal "1.5" true) (Literal "9.9" true)
                            (Literal "3" false) (Literal "1" false))
  = "CAST(TRY_TO_NUMBER('1.5', '9.9') AS DECIMAL(3, 1))"
  ∧ try_to_number Sample.generator
      (Snowflake.TryToNumber2 (Literal "1.5" true) (Literal "9.9" true))
    = "CAST(TRY_TO_NUMBER('1.5', '9.9') AS DECIMAL(38, 0))".
Proof. split; vm_compute; reflexivity. Qed.

(** *** DELETE *)

(** The text [delete_sql] puts after the statement keyword, for a statement
    with a USING clause and for one without. *)
Lemma delete_sql_using (self : Generator) (expression : value) :
  nonempty (sql self expression "using") = true →
  ∃ before after,
    delete_sql self expression
    = prepend_ctes self expression
        ("MERGE" +:+ before
         +:+ replace (sql self expression "where") "WHERE" "ON"
         +:+ after +:+ " WHEN MATCHED THEN DELETE;").
Proof.
  intros Hu. unfold delete_sql. rewrite Hu. cbv beta iota zeta.
  assert (nonempty (" USING " +:+ sql self expression "using") = true)
    as -> by reflexivity.
  set (tables := if nonempty _ then _ else _).
  set (where_ := replace _ _ _).
  destruct (RETURNING_END self).
  - exists (tables +:+ " " +:+ sql self expression "this" +:+ " USING "
            +:+ sql self expression "using"),
           (sql self expression "returning" +:+ sql self expression "limit").
    f_equal. rewrite !app_assoc. reflexivity.
  - exists (tables +:+ sql self expression "returning"
            +:+ sql self expression "this"),
           (sql self expression "limit").
    f_equal. rewrite !app_assoc. reflexivity.
Qed.

Lemma delete_sql_no_using (self : Generator) (expression : value) :
  nonempty (sql self expression "using") = false →
  ∃ post,
    delete_sql self expression
    = prepend_ctes self expression ("DELETE" +:+ post).
Proof.
  intros Hu. unfold delete_sql. rewrite Hu. cbv beta iota zeta.
  rewrite Hu. eexists. reflexivity.
Qed.

Lemma nonempty_false s : nonempty s = false → s = "".
Proof.
  unfold nonempty. intros Hs. by apply negb_false_iff, String.eqb_eq in Hs.
Qed.

(** C1 (as amended): for a DELETE with a USING clause (its rendered text is
    not empty) the output contains [MERGE] and ends with
    [WHEN MATCHED THEN DELETE;], and the rendered WHERE clause is in it with
    [WHERE] replaced by [ON], so that a clause [ WHERE c] reads [ ON c].
    For a DELETE without USING the output is the CTE prefix followed by
    [DELETE], the rendered tables, and the rendered clauses in the order
    [RETURNING_END] sets: [FROM] and the target, the WHERE clause,
    [returning] and [limit], or [returning] first.  It contains [DELETE],
    and it contains [MERGE] only where the CTE prefix or that rendered
    text does.  The framework's [prepend_ctes] puts text before the
    statement and leaves the statement as it is. *)
Theorem delete_sql_merge_or_delete (self : Generator) (expression : value) :
  (∀ e s, ∃ pre, prepend_ctes self e s = pre +:+ s) →
  (nonempty (sql self expression "using") = true →
     contains "MERGE" (delete_sql self expression) = true
     ∧ endswith (delete_sql self expression) " WHEN MATCHED THEN DELETE;" = true
     ∧ contains (replace (sql self expression "where") "WHERE" "ON")
                (delete_sql self expression) = true
     ∧ ∀ cond, sql self expression "where" = " WHERE " +:+ cond →
               contains (" ON " +:+ replace cond "WHERE" "ON")
                        (delete_sql self expression) = true)
  ∧ (nonempty (sql self expression "using") = false →
     let tables := expressions self expression "tables" None false in
     let this := sql self expression "this" in
     let from_ := if nonempty this then "FROM " +:+ this else "" in
     let post :=
       (if nonempty tables then " " +:+ tables else "")
       +:+ (if RETURNING_END self
            then " " +:+ from_ +:+ sql self expression "where"
                 +:+ sql self expression "returning"
                 +:+ sql self expression "limit"
            else sql self expression "returning" +:+ from_
                 +:+ sql self expression "where"
                 +:+ sql self expression "limit") in
     delete_sql self expression
     = prepend_ctes self expression ("DELETE" +:+ post)
     ∧ contains "DELETE" (delete_sql self expression) = true
     ∧ ∃ pre,
         delete_sql self expression = pre +:+ "DELETE" +:+ post
         ∧ (contains "MERGE" (delete_sql self expression) = true →
            contains "MERGE" pre = true ∨ contains "MERGE" post = true)).
Proof.
  intros Hpre. split; intros Hu.
  - destruct (delete_sql_using self expression Hu) as (before & after & ->).
    destruct (Hpre expression
                ("MERGE" +:+ before
                 +:+ replace (sql self expression "where") "WHERE" "ON"
                 +:+ after +:+ " WHEN MATCHED THEN DELETE;")) as [pre ->].
    assert (contains (replace (sql self expression "where") "WHERE" "ON")
              (pre +:+ "MERGE" +:+ before
               +:+ replace (sql self expression "where") "WHERE" "ON"
               +:+ after +:+ " WHEN MATCHED THEN DELETE;") = true) as Hwhere.
    { do 3 apply contains_app_r. apply contains_prefix, prefix_app. }
    split; [apply contains_intro|]. split; [|split; [exact Hwhere|]].
    + do 4 apply endswith_app_r. apply endswith_app.
    + intros cond Hcond. rewrite Hcond, replace_where_keyword in Hwhere.
      rewrite Hcond, replace_where_keyword. exact Hwhere.
  - intros tables this from_ post.
    assert (delete_sql self expression
            = prepend_ctes self expression ("DELETE" +:+ post)) as Hout.
    { apply nonempty_false in Hu. unfold delete_sql. rewrite Hu.
      change (nonempty "") with false. cbv beta iota zeta.
      fold tables. fold this. fold from_. unfold post.
      destruct (RETURNING_END self); reflexivity. }
    split; [exact Hout|].
    destruct (Hpre expression ("DELETE" +:+ post)) as [pre Hp].
    rewrite Hout, Hp.
    split; [apply contains_intro|].
    exists pre. split; [reflexivity|].
    apply contains_MERGE_around_DELETE.
Qed.

Lemma sample_prepend_ctes_prefix e s :
  ∃ pre, prepend_ctes Sample.generator e s = pre +:+ s.
Proof.
  simpl. unfold Sample.sample_prepend_ctes.
  destruct (nonempty _).
  - exists (Sample.sample_sql e "with" +:+ " "). rewrite app_assoc. reflexivity.
  - exists "". reflexivity.
Qed.

(** C1, the claim as stated fails: [DELETE FROM MERGE_LOG WHERE id = 1] has
    no USING clause, and its output contains [MERGE], in the name of the
    table. *)
Lemma delete_sql_without_using_contains_MERGE :
  sql Sample.generator Sample.delete_plain "using" = ""
  ∧ delete_sql Sample.generator Sample.delete_plain
    = "DELETE FROM MERGE_LOG WHERE id = 1"
  ∧ contains "MERGE" (delete_sql Sample.generator Sample.delete_plain) = true.
Proof. repeat split; vm_compute; reflexivity. Qed.

(** C1 at [DELETE FROM t USING s WHERE t.id = s.id]. *)
Lemma delete_sql_merge_or_delete_witness :
  contains "MERGE" (delete_sql Sample.generator Sample.delete_using) = true
  ∧ endswith (delete_sql Sample.generator Sample.delete_using)
             " WHEN MATCHED THEN DELETE;" = true
  ∧ contains (replace (sql Sample.generator Sample.delete_using "where")
                      "WHERE" "ON")
             (delete_sql Sample.generator Sample.delete_using) = true
  ∧ ∀ cond,
      sql Sample.generator Sample.delete_using "where" = " WHERE " +:+ cond →
      contains (" ON " +:+ replace cond "WHERE" "ON")
               (delete_sql Sample.generator Sample.delete_using) = true.
Proof.
  apply (proj1 (delete_sql_merge_or_delete Sample.generator Sample.delete_using
                  sample_prepend_ctes_prefix)).
  reflexivity.
Defined.

(** The two statements, rendered. *)
Lemma delete_sql_examples :
  delete_sql Sample.generator Sample.delete_using
  = "MERGE t USING s ON t.id = s.id WHEN MATCHED THEN DELETE;"
  ∧ delete_sql Sample.generator Sample.delete_plain
    = "DELETE FROM MERGE_LOG WHERE id = 1".
Proof. split; vm_compute; reflexivity. Qed.
End DatabricksFacts.

(** ** More on the keyword trie *)

Module TrieAlgebra.
Import Trie TriePaths.
Section trie.
Context {K : Type} `{Countable K} {V : Type}.
Implicit Types (a b c t : gmap K (entry K V)) (x y z : entry K V).

Lemma depth_lookup (m : gmap K (entry K V)) k x :
  m !! k = Some x → depth x < depth (Mapping m).
Proof.
  intros Hk. simpl.
  rewrite (map_fold_delete_L _ _ k x m); [lia | | exact Hk].
  intros. lia.
Qed.

(** Induction over the nesting of an entry. *)
Lemma entry_nested_ind (P : entry K V → Prop) :
  (∀ v, P (Terminal v)) →
  (∀ m, (∀ k x, m !! k = Some x → P x) → P (Mapping m)) →
  ∀ x, P x.
Proof.
  intros HT HM.
  assert (∀ n x, depth x < n → P x) as Hall.
  { induction n as [|n IH]; intros x Hn; [lia|].
    destruct x as [v|m]; [apply HT|]. apply HM. intros k y Hy.
    apply IH. pose proof (depth_lookup m k y Hy). lia. }
  intros x. apply (Hall (S (depth x))). lia.
Qed.
Lemma merge_trie_lookup_union a b k :
  merge_trie a b !! k
  = union_with (λ x y, Some (merge_both x y)) (a !! k) (b !! k).
Proof. unfold merge_trie. apply lookup_union_with. Qed.

Lemma merge_both_terminal_l v y : merge_both (Terminal v) y = y.
Proof. by destruct y. Qed.

Lemma dom_merge_trie a b : dom (merge_trie a b) = dom a ∪ dom b.
Proof.
  apply set_eq. intros k.
  rewrite elem_of_union, !elem_of_dom, merge_trie_lookup_union.
  destruct (a !! k), (b !! k); simpl;
    rewrite ?is_Some_alt; intuition (eauto || discriminate || done).
Qed.

(** X1: the keys of the merged trie are the keys of the two tries, and an
    empty trie on either side leaves the other trie as it is. *)
Theorem merge_trie_keys_and_empty a b :
  dom (merge_trie a b) = dom a ∪ dom b
  ∧ merge_trie ∅ a = a
  ∧ merge_trie a ∅ = a.
Proof.
  split; [apply dom_merge_trie|split].
  - apply map_eq. intros k. rewrite merge_trie_lookup_union, lookup_empty.
    by destruct (a !! k).
  - apply map_eq. intros k. rewrite merge_trie_lookup_union, lookup_empty.
    by destruct (a !! k).
Qed.

Lemma merge_both_idemp x : merge_both x x = x.
Proof.
  induction x as [v|m IH] using entry_nested_ind; [reflexivity|].
  rewrite TrieFacts.merge_both_mapping. f_equal. apply map_eq. intros k.
  rewrite merge_trie_lookup_union.
  destruct (m !! k) as [y|] eqn:Hk; [|reflexivity].
  simpl. by rewrite (IH k y Hk).
Qed.

(** X2: merging a trie with itself gives the trie back. *)
Theorem merge_trie_idempotent t : merge_trie t t = t.
Proof.
  apply map_eq. intros k. rewrite merge_trie_lookup_union.
  destruct (t !! k) as [y|]; [|reflexivity].
  simpl. by rewrite merge_both_idemp.
Qed.

Lemma merge_both_assoc x y z :
  merge_both (merge_both x y) z = merge_both x (merge_both y z).
Proof.
  revert y z. induction x as [v|ma IH] using entry_nested_ind; intros y z.
  { by rewrite !merge_both_terminal_l. }
  destruct y as [w|mb].
  { by rewrite merge_both_terminal_l. }
  destruct z as [u|mc]; [reflexivity|].
  rewrite !TrieFacts.merge_both_mapping. f_equal. apply map_eq. intros k.
  rewrite !merge_trie_lookup_union.
  destruct (ma !! k) as [x|] eqn:Hk, (mb !! k) as [y|], (mc !! k) as [z|];
    simpl; try reflexivity.
  by rewrite (IH k x Hk).
Qed.

(** X3: merging three tries gives the same trie whichever two are merged
    first. *)
Theorem merge_trie_assoc a b c :
  merge_trie (merge_trie a b) c = merge_trie a (merge_trie b c).
Proof.
  apply map_eq. intros k. rewrite !merge_trie_lookup_union.
  destruct (a !! k) as [x|], (b !! k) as [y|], (c !! k) as [z|];
    simpl; try reflexivity.
  by rewrite merge_both_assoc.
Qed.

(** X4: along any path of keys, the dict reached in the merged trie is the
    merge of the dicts reached in the two tries, or the one dict that is
    reached when the path exists in one trie only.  So a path of either trie
    is a path of the merged trie, and the keys found at its end are still
    there. *)
Theorem descend_merge_trie path a b :
  descend path (merge_trie a b)
  = union_with (λ m1 m2, Some (merge_trie m1 m2)) (descend path a) (descend path b)
  ∧ ∀ m, descend path a = Some m ∨ descend path b = Some m →
         ∃ m', descend path (merge_trie a b) = Some m' ∧ dom m ⊆ dom m'.
Proof.
  assert (∀ path a b,
    descend path (merge_trie a b)
    = union_with (λ m1 m2, Some (merge_trie m1 m2))
        (descend path a) (descend path b)) as Hd.
  { clear. induction path as [|key path IH]; intros a b; [reflexivity|].
    simpl. rewrite merge_trie_lookup_union.
    destruct (a !! key) as [[v|ma]|], (b !! key) as [[w|mb]|]; simpl;
      try reflexivity; try apply IH;
      match goal with
      | |- context [descend path ?m] => by destruct (descend path m)
      end. }
  split; [apply Hd|]. intros m Hm. rewrite Hd.
  destruct (descend path a) as [ma|], (descend path b) as [mb|]; simpl;
    destruct Hm as [Hm|Hm]; simplify_eq; eexists; (split; [reflexivity|]);
    rewrite ?dom_merge_trie; set_solver.
Qed.
End trie.

(** X4 at two tries that share the key [V]: the path [V] of the first trie
    leads, in the merged trie, to a dict that has the key [A] of its own. *)
Lemma descend_merge_trie_witness :
  ∃ m', descend ["V"]
          (merge_trie (K:=string) (V:=bool)
             {[ "V" := Mapping {[ "A" := Mapping ∅ ]} ]}
             {[ "V" := Mapping {[ "B" := Mapping ∅ ]} ]}) = Some m'
        ∧ dom ({[ "A" := Mapping ∅ ]} : gmap string (entry string bool))
          ⊆ dom m'.
Proof.
  apply (proj2 (descend_merge_trie ["V"]
                  {[ "V" := Mapping {[ "A" := Mapping ∅ ]} ]}
                  {[ "V" := Mapping {[ "B" := Mapping ∅ ]} ]})).
  left. reflexivity.
Defined.
End TrieAlgebra.

(** ** The tokenizer's keyword tables and its error window *)

Module TokenizerKeywords.
Import PyStr PyStrFacts SnowTokenizer.

Lemma upper_char_idemp c : upper_char (upper_char c) = upper_char c.
Proof. destruct c as [[] [] [] [] [] [] [] []]; reflexivity. Qed.

Lemma upper_idemp s : upper (upper s) = upper s.
Proof.
  induction s as [|c s IH]; [reflexivity|].
  simpl. by rewrite upper_char_idemp, IH.
Qed.

Lemma substring_length_le n m s : String.length (substring n m s) ≤ m.
Proof.
  revert n m. induction s as [|c s IH]; intros [|n] [|m]; simpl;
    try lia; try apply IH.
  specialize (IH 0 m). lia.
Qed.

Lemma substring_prefix m s : ∃ after, s = substring 0 m s +:+ after.
Proof.
  revert m. induction s as [|c s IH]; intros [|m].
  - by exists "".
  - by exists "".
  - by exists (String c s).
  - destruct (IH m) as [after Hs]. exists after.
    simpl. rewrite app_cons. by f_equal.
Qed.

Lemma substring_inside n m s :
  ∃ before after, s = before +:+ substring n m s +:+ after.
Proof.
  revert n. induction s as [|c s IH]; intros [|n].
  - exists "". apply substring_prefix.
  - by exists "", "".
  - exists "". apply substring_prefix.
  - destruct (IH n) as (before & after & Hs).
    exists (String c before), after. simpl. rewrite app_cons. by f_equal.
Qed.

Lemma dom_foldl_insert_upper (kind : string) (ms : list string)
    (d : gmap string string) :
  dom (foldl (λ d m, <[upper m := kind]> d) d ms)
  = dom d ∪ list_to_set (upper <$> ms).
Proof.
  revert d. induction ms as [|m ms IH]; intros d; simpl.
  - set_solver.
  - rewrite IH, dom_insert_L. set_solver.
Qed.

Section matches.
Variable finditer : string → string → list string.

Lemma dom_match_strings_from (string_ : string)
    (pattern_dict : list (string * string)) (d : gmap string string) :
  dom (foldl (λ result_dict '(pattern, kind),
                foldl (λ d m, <[upper m := kind]> d) result_dict
                      (finditer pattern string_))
             d pattern_dict)
  = dom d ∪ list_to_set (match_strings_list finditer string_ pattern_dict).
Proof.
  revert d. induction pattern_dict as [|[pattern kind] l IH]; intros d.
  - simpl. set_solver.
  - simpl. rewrite IH, dom_foldl_insert_upper.
    unfold match_strings_list. simpl. rewrite list_to_set_app_L. set_solver.
Qed.

(** X5: the keywords [match_strings_token_dict] registers are exactly the
    strings [match_strings_list] hands to the trie, and each of them is in
    upper case. *)
Theorem match_strings_same_keywords (string_ : string)
    (pattern_dict : list (string * string)) :
  dom (match_strings_token_dict finditer string_ pattern_dict)
  = list_to_set (match_strings_list finditer string_ pattern_dict)
  ∧ ∀ k, k ∈ match_strings_list finditer string_ pattern_dict → upper k = k.
Proof.
  split.
  - unfold match_strings_token_dict. rewrite dom_match_strings_from.
    set_solver.
  - intros k. unfold match_strings_list.
    rewrite list_elem_of_bind. intros ([pattern kind] & Hk & _).
    apply list_elem_of_fmap in Hk as (m & -> & _). apply upper_idemp.
Qed.

End matches.

Section tokenizer.
Context {K : Type} `{Countable K} {V : Type} {token : Type}.
Variable finditer : string → string → list string.
Variable new_trie : list string → gmap K (Trie.entry K V).
Variable reset : Tokenizer K V token → Tokenizer K V token.
Variable _scan : Tokenizer K V token → Tokenizer K V token * option exn.

Lemma tokenize_state self sql :
  (tokenize finditer new_trie reset _scan self sql).1
  = (_scan (prepare finditer new_trie reset self sql)).1.
Proof. unfold tokenize. by destruct (_scan _) as [st [e|]]. Qed.

(** X6: what two calls of [tokenize] leave in the class attributes, with a
    base [reset] and [_scan] that do not touch them.  [KEYWORDS] only grows:
    the keywords found in the first statement are still keywords after the
    second.  [KEYWORD_TRIE] is computed anew from [_KEYWORD_TRIE] and the
    keywords of the statement at hand: after the second call it holds
    nothing of the first statement. *)
Theorem tokenize_twice self sql1 sql2 :
  (∀ st, KEYWORDS (reset st) = KEYWORDS st
         ∧ _KEYWORD_TRIE (reset st) = _KEYWORD_TRIE st) →
  (∀ st, KEYWORDS (_scan st).1 = KEYWORDS st
         ∧ _KEYWORD_TRIE (_scan st).1 = _KEYWORD_TRIE st
         ∧ KEYWORD_TRIE (_scan st).1 = KEYWORD_TRIE st) →
  KEYWORDS self
    ⊆ KEYWORDS (tokenize finditer new_trie reset _scan self sql1).1
  ∧ KEYWORDS (tokenize finditer new_trie reset _scan self sql1).1
    ⊆ KEYWORDS (tokenize finditer new_trie reset _scan
                  (tokenize finditer new_trie reset _scan self sql1).1 sql2).1
  ∧ (∀ k, k ∈ match_strings_list finditer sql1 CUSTOM_TOKEN_MAP →
          is_Some (KEYWORDS (tokenize finditer new_trie reset _scan
                    (tokenize finditer new_trie reset _scan self sql1).1
                    sql2).1 !! k))
  ∧ KEYWORD_TRIE (tokenize finditer new_trie reset _scan
                    (tokenize finditer new_trie reset _scan self sql1).1 sql2).1
    = Trie.merge_trie (_KEYWORD_TRIE self)
        (new_trie (match_strings_list finditer sql2 CUSTOM_TOKEN_MAP)).
Proof.
  intros Hreset Hscan.
  assert (∀ st sql,
    KEYWORDS (tokenize finditer new_trie reset _scan st sql).1
    = KEYWORDS st ∪ match_strings_token_dict finditer sql CUSTOM_TOKEN_MAP)
    as Hkw.
  { intros st sql. rewrite tokenize_state.
    rewrite (proj1 (Hscan _)). unfold prepare. simpl.
    by rewrite (proj1 (Hreset st)). }
  assert (∀ st sql,
    _KEYWORD_TRIE (tokenize finditer new_trie reset _scan st sql).1
    = _KEYWORD_TRIE st) as Hbase.
  { intros st sql. rewrite tokenize_state.
    rewrite (proj1 (proj2 (Hscan _))). unfold prepare. simpl.
    by rewrite (proj2 (Hreset st)). }
  assert (∀ st sql,
    KEYWORD_TRIE (tokenize finditer new_trie reset _scan st sql).1
    = Trie.merge_trie (_KEYWORD_TRIE st)
        (new_trie (match_strings_list finditer sql CUSTOM_TOKEN_MAP)))
    as Htrie.
  { intros st sql. rewrite tokenize_state.
    rewrite (proj2 (proj2 (Hscan _))). unfold prepare. simpl.
    by rewrite (proj2 (Hreset st)). }
  split; [|split; [|split]].
  - rewrite Hkw. apply map_union_subseteq_l.
  - rewrite (Hkw (tokenize _ _ _ _ _ _).1). apply map_union_subseteq_l.
  - intros k Hk. apply elem_of_dom. rewrite !Hkw, !dom_union_L.
    unfold match_strings_token_dict at 1.
    rewrite dom_match_strings_from. set_solver.
  - by rewrite Htrie, Hbase.
Qed.

(** X7: on a tokenizer state whose [size] is the length of its statement
    and whose offset is not negative, the text quoted in the error message
    is a piece of the statement and has at most 100 characters. *)
Theorem context_window (st : Tokenizer K V token) :
  size st = Z.of_nat (String.length (sql st)) → (0 ≤ _current st)%Z →
  String.length (context st) ≤ 100
  ∧ ∃ before after, sql st = before +:+ context st +:+ after.
Proof.
  intros Hsize Hcur. unfold context, slice. split; [|apply substring_inside].
  etrans; [apply substring_length_le|].
  rewrite <-Hsize. unfold slice_index.
  repeat match goal with
         | |- context [Z.ltb ?a ?b] => destruct (Z.ltb_spec a b)
         end; lia.
Qed.
End tokenizer.

(** X5 at a statement that declares a variable. *)
Lemma match_strings_same_keywords_witness :
  upper "VAR X = 1" = "VAR X = 1".
Proof.
  apply (proj2 (match_strings_same_keywords SampleKeywords.finditer
                  "select 1; var x = 1" CUSTOM_TOKEN_MAP)).
  vm_compute. apply list_elem_of_here.
Defined.

Lemma sample_reset_keeps (st : Tokenizer string bool string) :
  KEYWORDS ((λ self : Tokenizer string bool string, self) st) = KEYWORDS st
  ∧ _KEYWORD_TRIE ((λ self : Tokenizer string bool string, self) st)
    = _KEYWORD_TRIE st.
Proof. split; reflexivity. Qed.

Lemma sample_scan_keeps (st : Tokenizer string bool string) :
  KEYWORDS (Sample.scan_raising 0 (OtherError "TokenError") st).1 = KEYWORDS st
  ∧ _KEYWORD_TRIE (Sample.scan_raising 0 (OtherError "TokenError") st).1
    = _KEYWORD_TRIE st
  ∧ KEYWORD_TRIE (Sample.scan_raising 0 (OtherError "TokenError") st).1
    = KEYWORD_TRIE st.
Proof. repeat split; reflexivity. Qed.

(** X6 at the statements [var x = 1] and [select 1]: after the second call
    [VAR X = 1] is still a keyword, and the trie is the base trie again. *)
Lemma tokenize_twice_witness :
  is_Some
    (KEYWORDS
       (tokenize SampleKeywords.finditer SampleKeywords.new_trie
          (λ self, self) (Sample.scan_raising 0 (OtherError "TokenError"))
          (tokenize SampleKeywords.finditer SampleKeywords.new_trie
             (λ self, self) (Sample.scan_raising 0 (OtherError "TokenError"))
             Sample.tokenizer "var x = 1").1
          "select 1").1 !! "VAR X = 1")
  ∧ KEYWORD_TRIE
      (tokenize SampleKeywords.finditer SampleKeywords.new_trie
         (λ self, self) (Sample.scan_raising 0 (OtherError "TokenError"))
         (tokenize SampleKeywords.finditer SampleKeywords.new_trie
            (λ self, self) (Sample.scan_raising 0 (OtherError "TokenError"))
            Sample.tokenizer "var x = 1").1
         "select 1").1
    = Trie.merge_trie (_KEYWORD_TRIE Sample.tokenizer)
        (SampleKeywords.new_trie
           (match_strings_list SampleKeywords.finditer "select 1"
              CUSTOM_TOKEN_MAP)).
Proof.
  destruct (tokenize_twice SampleKeywords.finditer SampleKeywords.new_trie
              (λ self, self) (Sample.scan_raising 0 (OtherError "TokenError"))
              Sample.tokenizer "var x = 1" "select 1"
              sample_reset_keeps sample_scan_keeps)
    as (_ & _ & Hkw & Htrie).
  split; [|exact Htrie]. apply Hkw. vm_compute. apply list_elem_of_here.
Defined.

(** X7 at the state of a scan that gave up at the end of [SELECT 'abc]. *)
Lemma context_window_witness :
  String.length
    (context (Sample.scan_raising 11 (OtherError "TokenError")
                (prepare SampleKeywords.finditer SampleKeywords.new_trie
                   (λ self, self) Sample.tokenizer "SELECT 'abc")).1) ≤ 100
  ∧ ∃ before after,
      sql (Sample.scan_raising 11 (OtherError "TokenError")
             (prepare SampleKeywords.finditer SampleKeywords.new_trie
                (λ self, self) Sample.tokenizer "SELECT 'abc")).1
      = before +:+
        context (Sample.scan_raising 11 (OtherError "TokenError")
                   (prepare SampleKeywords.finditer SampleKeywords.new_trie
                      (λ self, self) Sample.tokenizer "SELECT 'abc")).1
        +:+ after.
Proof.
  apply (context_window
           (Sample.scan_raising 11 (OtherError "TokenError")
              (prepare SampleKeywords.finditer SampleKeywords.new_trie
                 (λ self, self) Sample.tokenizer "SELECT 'abc")).1).
  - reflexivity.
  - vm_compute. discriminate.
Defined.
End TokenizerKeywords.

(** ** The builders' errors, and a builder followed by its renderer *)

Module BuilderEdges.
Import Ast PyStr PyStrFacts Snowflake Presto Databricks.

Section approx_percentile.
Variable float_of_str : string → option float.
Variable str_of : value → string.
Variable from_arg_list : list value → value.

Lemma accuracy_not_a_number text is_string :
  float_of_str text = None →
  accuracy float_of_str (Literal text is_string) = Raise ValueError.
Proof.
  intros Hx. unfold accuracy, Literal, this_of, get_arg, args_of.
  rewrite lookup_insert_eq. simpl. by rewrite Hx.
Qed.

Lemma accuracy_zero text is_string x :
  float_of_str text = Some x → (x =? 0)%float = true →
  accuracy float_of_str (Literal text is_string) = Raise ZeroDivisionError.
Proof.
  intros Hx Hz. unfold accuracy, Literal, this_of, get_arg, args_of.
  rewrite lookup_insert_eq. simpl. rewrite Hx. simpl.
  unfold PyFloat.one_over. by rewrite Hz.
Qed.

Lemma accuracy_not_text cls (args : gmap string value) :
  match default VNone (args !! "this") with
  | VNone | VList _ | VExp _ _ => True
  | _ => False
  end →
  accuracy float_of_str (VExp cls args) = Raise TypeError.
Proof.
  intros Hthis. unfold accuracy, this_of, get_arg, args_of.
  by destruct (default VNone (args !! "this")).
Qed.

(** X8: an accuracy literal whose text [float] does not read as a number is
    a parse error, with three arguments and with four; the message names the
    argument as it prints, and says "argument 2" in both cases. *)
Theorem build_approx_percentile_not_a_number :
  ∀ text is_string, float_of_str text = None →
    (∀ this quantile,
       _build_approx_percentile float_of_str str_of from_arg_list
         [this; quantile; Literal text is_string]
       = Raise (ParseError
           ("Expected a string representation of a number for argument 2, but got "
            +:+ str_of (Literal text is_string))))
    ∧ (∀ this weight quantile,
         _build_approx_percentile float_of_str str_of from_arg_list
           [this; weight; quantile; Literal text is_string]
         = Raise (ParseError
             ("Expected a string representation of a number for argument 2, but got "
              +:+ str_of (Literal text is_string)))).
Proof.
  intros text is_string Hx. split; intros.
  - rewrite PrestoFacts.build_approx_percentile_3.
    by rewrite (accuracy_not_a_number text is_string Hx).
  - rewrite PrestoFacts.build_approx_percentile_4.
    by rewrite (accuracy_not_a_number text is_string Hx).
Qed.

(** X9: two errors the builder lets through, with three arguments and with
    four alike.  An accuracy literal that reads as zero ends in a division
    by zero, and an accuracy argument whose [this] is not text (a column,
    whose [this] is an identifier, or a node without [this]) ends in a type
    error; neither becomes a parse error. *)
Theorem build_approx_percentile_uncaught :
  (∀ text is_string x,
     float_of_str text = Some x → (x =? 0)%float = true →
     (∀ this quantile,
        _build_approx_percentile float_of_str str_of from_arg_list
          [this; quantile; Literal text is_string]
        = Raise ZeroDivisionError)
     ∧ (∀ this weight quantile,
          _build_approx_percentile float_of_str str_of from_arg_list
            [this; weight; quantile; Literal text is_string]
          = Raise ZeroDivisionError))
  ∧ (∀ cls (args : gmap string value),
       match default VNone (args !! "this") with
       | VNone | VList _ | VExp _ _ => True
       | _ => False
       end →
       (∀ this quantile,
          _build_approx_percentile float_of_str str_of from_arg_list
            [this; quantile; VExp cls args]
          = Raise TypeError)
       ∧ (∀ this weight quantile,
            _build_approx_percentile float_of_str str_of from_arg_list
              [this; weight; quantile; VExp cls args]
            = Raise TypeError)).
Proof.
  split.
  - intros text is_string x Hx Hz. split; intros.
    + rewrite PrestoFacts.build_approx_percentile_3.
      by rewrite (accuracy_zero text is_string x Hx Hz).
    + rewrite PrestoFacts.build_approx_percentile_4.
      by rewrite (accuracy_zero text is_string x Hx Hz).
  - intros cls args Hthis. split; intros.
    + rewrite PrestoFacts.build_approx_percentile_3.
      by rewrite (accuracy_not_text cls args Hthis).
    + rewrite PrestoFacts.build_approx_percentile_4.
      by rewrite (accuracy_not_text cls args Hthis).
Qed.
End approx_percentile.

(** X8 at [APPROX_PERCENTILE(x, 0.5, 'abc')]. *)
Lemma build_approx_percentile_not_a_number_witness :
  _build_approx_percentile PyFloat.of_decimal (λ _, "'abc'") (λ _, VNone)
    [VExp "Column" {[ "this" := VStr "x" ]}; Literal "0.5" false;
     Literal "abc" true]
  = Raise (ParseError
      ("Expected a string representation of a number for argument 2, but got "
       +:+ "'abc'")).
Proof.
  apply (proj1 (build_approx_percentile_not_a_number PyFloat.of_decimal
                  (λ _, "'abc'") (λ _, VNone) "abc" true eq_refl)).
Defined.

(** X9 at [APPROX_PERCENTILE(x, 0.5, 0)] and at
    [APPROX_PERCENTILE(x, 2, 0.5, y)]. *)
Lemma build_approx_percentile_uncaught_witness :
  _build_approx_percentile PyFloat.of_decimal (λ _, "") (λ _, VNone)
    [VExp "Column" {[ "this" := VStr "x" ]}; Literal "0.5" false;
     Literal "0" false]
  = Raise ZeroDivisionError
  ∧ _build_approx_percentile PyFloat.of_decimal (λ _, "") (λ _, VNone)
      [VExp "Column" {[ "this" := VStr "x" ]}; Literal "2" false;
       Literal "0.5" false;
       VExp "Column" {[ "this" := VExp "Identifier" {[ "this" := VStr "y" ]} ]}]
    = Raise TypeError.
Proof.
  split.
  - apply (proj1 (proj1 (build_approx_percentile_uncaught PyFloat.of_decimal
                           (λ _, "") (λ _, VNone))
                    "0" false 0%float eq_refl eq_refl)).
  - apply (proj2 (build_approx_percentile_uncaught PyFloat.of_decimal
                    (λ _, "") (λ _, VNone))).
    vm_compute. exact I.
Defined.

Section trytonumber.
Variable repr_args : list value → string.

(** X10: a try-to-number call from the parser to the generator.  With value
    and format only, the node built renders as the cast of
    [TRY_TO_NUMBER(value, format)] to [DECIMAL(38, 0)]; with precision and
    scale, of rendered texts [p] and [s], as the cast to [DECIMAL(p, s)]. *)
Theorem trytonumber_parse_then_render (self : Generator) value format :
  (∀ e key, args_of e !! key = None → sql self e key = "") →
  truthy format = true →
  (∃ e, _parse_trytonumber repr_args [value; format] = Return e
        ∧ try_to_number self e
          = "CAST(" +:+ func self "TRY_TO_NUMBER" [value; format]
            +:+ " AS DECIMAL(38, 0))")
  ∧ (∀ precision scale,
       ∃ e, _parse_trytonumber repr_args [value; format; precision; scale]
            = Return e
            ∧ (sql self e "precision" ≠ "" → sql self e "scale" ≠ "" →
               try_to_number self e
               = "CAST(" +:+ func self "TRY_TO_NUMBER" [value; format]
                 +:+ " AS DECIMAL(" +:+ sql self e "precision" +:+ ", "
                 +:+ sql self e "scale" +:+ "))")).
Proof.
  intros Hsql Hformat. split.
  - exists (TryToNumber2 value format). split; [reflexivity|].
    unfold try_to_number, try_to_number_call, TryToNumber2, get_arg, args_of.
    rewrite !Hsql by (simpl; by simplify_map_eq).
    simplify_map_eq. simpl. rewrite Hformat. reflexivity.
  - intros precision scale.
    exists (TryToNumber4 value format precision scale).
    split; [reflexivity|]. intros Hp Hs.
    unfold try_to_number.
    rewrite (DatabricksFacts.nonempty_true _ Hp),
            (DatabricksFacts.nonempty_true _ Hs).
    unfold try_to_number_call, TryToNumber4, get_arg, args_of.
    simplify_map_eq. simpl. rewrite Hformat. reflexivity.
Qed.
End trytonumber.

(** X10 at [TRY_TO_NUMBER('1.5', '9.9')]. *)
Lemma trytonumber_parse_then_render_witness :
  ∃ e, _parse_trytonumber (λ _, "") [Literal "1.5" true; Literal "9.9" true]
       = Return e
       ∧ try_to_number Sample.generator e
         = "CAST(" +:+ func Sample.generator "TRY_TO_NUMBER"
                         [Literal "1.5" true; Literal "9.9" true]
           +:+ " AS DECIMAL(38, 0))".
Proof.
  apply (proj1 (trytonumber_parse_then_render (λ _, "") Sample.generator
                  (Literal "1.5" true) (Literal "9.9" true)
                  DatabricksFacts.sample_sql_absent eq_refl)).
Defined.
End BuilderEdges.

(** ** The generator: what the render functions keep, drop and check *)

Module GeneratorEdges.
Import Ast PyStr PyStrFacts Databricks DatabricksTypes.

(** *** DELETE ... USING: the rewrite of the WHERE clause *)

Lemma replace_go_0_cons c s :
  replace_go "WHERE" "ON" 0 (String c s)
  = if String.prefix "WHERE" (String c s)
    then String "O" (String "N" (replace_go "WHERE" "ON" 4 s))
    else String c (replace_go "WHERE" "ON" 0 s).
Proof. reflexivity. Qed.

(** A text without the letter O that opens the result of the replacement
    opens the text the replacement was made in. *)
Lemma replace_go_prefix p s :
  "O"%char ∉ list_ascii_of_string p →
  String.prefix p (replace_go "WHERE" "ON" 0 s) = true →
  String.prefix p s = true.
Proof.
  revert p. induction s as [|c s IH]; intros p Hp; [done|].
  destruct p as [|a p]; [intros _; apply prefix_nil|].
  rewrite replace_go_0_cons.
  destruct (String.prefix "WHERE" (String c s)).
  - rewrite prefix_cons. intros Ha. apply andb_true_iff in Ha as [Ha _].
    apply Ascii.eqb_eq in Ha. subst a. exfalso. apply Hp.
    change (list_ascii_of_string (String "O" p))
      with ("O"%char :: list_ascii_of_string p).
    apply list_elem_of_here.
  - rewrite !prefix_cons. intros Ha. apply andb_true_iff in Ha as [-> Ha].
    apply IH; [|exact Ha]. intros Hin. apply Hp.
    change (list_ascii_of_string (String a p))
      with (a :: list_ascii_of_string p).
    by apply list_elem_of_further.
Qed.

Lemma replace_go_no_WHERE skip s :
  contains "WHERE" (replace_go "WHERE" "ON" skip s) = false.
Proof.
  revert skip. induction s as [|c s IH]; intros skip; [reflexivity|].
  destruct skip as [|skip]; [|exact (IH skip)].
  destruct (String.prefix "WHERE" (replace_go "WHERE" "ON" 0 (String c s)))
    eqn:Hpre.
  - exfalso.
    assert (String.prefix "WHERE" (String c s) = true) as Hs.
    { apply replace_go_prefix; [|exact Hpre].
      change (list_ascii_of_string "WHERE")
        with ["W"; "H"; "E"; "R"; "E"]%char.
      repeat (apply not_elem_of_cons; split; [discriminate|]).
      apply not_elem_of_nil. }
    rewrite replace_go_0_cons, Hs in Hpre. done.
  - revert Hpre. rewrite replace_go_0_cons.
    destruct (String.prefix "WHERE" (String c s)); intros Hpre.
    + rewrite !contains_cons, Hpre, IH. reflexivity.
    + rewrite contains_cons, Hpre, IH. reflexivity.
Qed.

(** X11: a DELETE with a USING clause is rendered with every [WHERE] of its
    where clause turned into [ON], the keyword and any other occurrence in
    the condition alike: the text put in its place contains no [WHERE].
    With [RETURNING_END] the statement is [MERGE], the tables, the target,
    the USING clause, the rewritten clause, [returning] and [limit]; without
    it the USING clause is not part of the statement. *)
Theorem delete_sql_using_rewrites_every_where
    (self : Generator) (expression : value) :
  sql self expression "using" ≠ "" →
  let tables := expressions self expression "tables" None false in
  let on_ := replace (sql self expression "where") "WHERE" "ON" in
  contains "WHERE" on_ = false
  ∧ (RETURNING_END self = true →
     delete_sql self expression
     = prepend_ctes self expression
         ("MERGE" +:+ (if nonempty tables then " " +:+ tables else "")
          +:+ " " +:+ sql self expression "this"
          +:+ " USING " +:+ sql self expression "using"
          +:+ on_ +:+ sql self expression "returning"
          +:+ sql self expression "limit" +:+ " WHEN MATCHED THEN DELETE;"))
  ∧ (RETURNING_END self = false →
     delete_sql self expression
     = prepend_ctes self expression
         ("MERGE" +:+ (if nonempty tables then " " +:+ tables else "")
          +:+ sql self expression "returning" +:+ sql self expression "this"
          +:+ on_ +:+ sql self expression "limit"
          +:+ " WHEN MATCHED THEN DELETE;")).
Proof.
  intros Hu tables on_. split; [apply replace_go_no_WHERE|].
  apply DatabricksFacts.nonempty_true in Hu.
  assert (nonempty (" USING " +:+ sql self expression "using") = true)
    as Hu' by reflexivity.
  split; intros Hend; unfold delete_sql; rewrite Hu; cbv beta iota zeta;
    rewrite Hu', Hend; fold tables; fold on_;
    f_equal; rewrite !app_assoc; reflexivity.
Qed.

(** X11 at [DELETE FROM t USING s WHERE t.id = s.id]. *)
Lemma delete_sql_using_rewrites_every_where_witness :
  contains "WHERE"
    (replace (sql Sample.generator Sample.delete_using "where") "WHERE" "ON")
  = false
  ∧ delete_sql Sample.generator Sample.delete_using
    = "MERGE t USING s ON t.id = s.id WHEN MATCHED THEN DELETE;".
Proof.
  assert (sql Sample.generator Sample.delete_using "using" ≠ "") as Hu
    by (vm_compute; discriminate).
  split.
  - apply (proj1 (delete_sql_using_rewrites_every_where
                    Sample.generator Sample.delete_using Hu)).
  - rewrite (proj1 (proj2 (delete_sql_using_rewrites_every_where
                             Sample.generator Sample.delete_using Hu))
               eq_refl).
    vm_compute. reflexivity.
Defined.

(** *** Column definitions: the copy, and the letters that are checked *)

(** X12: [_columndef_sql] writes to a new object only.  The store after the
    call, whether a text or an error comes back, is the store before it with
    one new object: the column definition with its constraints, when they
    are a list, cut down to the comment constraints, in their order, and
    with every other argument as it was.  The node passed in keeps all its
    constraints, also when the call ends in an error. *)
Theorem columndef_sql_store
    (self : Generator) (σ : store) (l : loc) cls (args : gmap string value) :
  σ !! l = Some (VExp cls args) →
  ∃ l', σ !! l' = None
    ∧ (∀ constraints,
         args !! "constraints" = Some (VList constraints) →
         (_columndef_sql self σ l).1
         = <[l' := VExp cls
                     (<["constraints" :=
                          VList (filter
                                   (λ c, isinstance c "CommentColumnConstraint"
                                         = true) constraints)]> args)]> σ)
    ∧ (args !! "constraints" = None →
         (_columndef_sql self σ l).1 = <[l' := VExp cls args]> σ)
    ∧ (_columndef_sql self σ l).1 !! l = Some (VExp cls args).
Proof.
  intros Hl.
  destruct (DatabricksFacts.copy_spec σ l) as (l' & Hcopy & Hfresh).
  assert (l ≠ l') as Hne by (intros ->; unfold store, loc in *; congruence).
  assert (∀ e',
    keep_comment_constraints (VExp cls args) = Return e' →
    (_columndef_sql self σ l).1 = <[l' := e']> (<[l' := VExp cls args]> σ))
    as Hstore.
  { intros e' Hkeep. unfold _columndef_sql. rewrite Hcopy.
    cbv beta iota zeta. unfold store, loc in *.
    rewrite (lookup_total_correct _ _ _ Hl), lookup_total_insert_eq, Hkeep.
    destruct (search_leading_alpha _) as [kind_str|]; [|reflexivity].
    destruct (bool_decide _); [reflexivity|].
    destruct (negb _); reflexivity. }
  assert (∀ constraints,
    args !! "constraints" = Some (VList constraints) →
    keep_comment_constraints (VExp cls args)
    = Return (VExp cls
                (<["constraints" :=
                     VList (filter
                              (λ c, isinstance c "CommentColumnConstraint"
                                    = true) constraints)]> args)))
    as Hlist.
  { intros constraints Hargs.
    unfold keep_comment_constraints, get_arg, args_of. rewrite Hargs.
    destruct constraints as [|c constraints]; [|reflexivity].
    simpl. by rewrite insert_id. }
  assert (args !! "constraints" = None →
          keep_comment_constraints (VExp cls args) = Return (VExp cls args))
    as Hnone.
  { intros Hargs. unfold keep_comment_constraints, get_arg, args_of.
    by rewrite Hargs. }
  exists l'. unfold store, loc in *. split; [exact Hfresh|].
  split; [|split].
  - intros constraints Hargs.
    rewrite (Hstore _ (Hlist constraints Hargs)). apply insert_insert_eq.
  - intros Hargs. rewrite (Hstore _ (Hnone Hargs)). apply insert_insert_eq.
  - destruct (keep_comment_constraints (VExp cls args)) as [e'|e] eqn:Hkeep.
    + rewrite (Hstore e' eq_refl). by rewrite !lookup_insert_ne.
    + unfold _columndef_sql. rewrite Hcopy. cbv beta iota zeta.
      unfold store, loc in *.
      rewrite (lookup_total_correct _ _ _ Hl), lookup_total_insert_eq, Hkeep.
      simpl. by rewrite lookup_insert_ne.
Qed.
(** X12 at a column [a INT] with a NOT NULL and a comment constraint. *)
Lemma columndef_sql_store_witness :
  ∃ l', ({[ 1%positive :=
             VExp "ColumnDef"
               {[ "this" := VExp "Identifier" {[ "this" := VStr "a" ]};
                  "kind" := VExp "DataType" {[ "this" := VStr "INT" ]};
                  "constraints" :=
                    VList [VExp "NotNullColumnConstraint" ∅;
                           VExp "CommentColumnConstraint"
                             {[ "this" := VStr "'id'" ]}] ]} ]} : store)
          !! l' = None
    ∧ (_columndef_sql Sample.generator
         {[ 1%positive :=
             VExp "ColumnDef"
               {[ "this" := VExp "Identifier" {[ "this" := VStr "a" ]};
                  "kind" := VExp "DataType" {[ "this" := VStr "INT" ]};
                  "constraints" :=
                    VList [VExp "NotNullColumnConstraint" ∅;
                           VExp "CommentColumnConstraint"
                             {[ "this" := VStr "'id'" ]}] ]} ]}
         1%positive).1 !! l'
      = Some (VExp "ColumnDef"
               {[ "this" := VExp "Identifier" {[ "this" := VStr "a" ]};
                  "kind" := VExp "DataType" {[ "this" := VStr "INT" ]};
                  "constraints" :=
                    VList [VExp "CommentColumnConstraint"
                             {[ "this" := VStr "'id'" ]}] ]}).
Proof.
  set (args := ({[ "this" := VExp "Identifier" {[ "this" := VStr "a" ]};
                   "kind" := VExp "DataType" {[ "this" := VStr "INT" ]};
                   "constraints" :=
                     VList [VExp "NotNullColumnConstraint" ∅;
                            VExp "CommentColumnConstraint"
                              {[ "this" := VStr "'id'" ]}] ]}
                : gmap string value)).
  assert (({[ 1%positive := VExp "ColumnDef" args ]} : store) !! 1%positive
          = Some (VExp "ColumnDef" args)) as Hl by reflexivity.
  destruct (columndef_sql_store Sample.generator _ _ _ _ Hl)
    as (l' & Hfresh & Hlist & _ & _).
  exists l'. split; [exact Hfresh|].
  unfold store, loc in *.
  rewrite (Hlist _ eq_refl), lookup_insert_eq.
  f_equal.
Defined.

Lemma app_nil_r s : s +:+ "" = s.
Proof. induction s as [|c s IH]; [done|]. rewrite app_cons. by f_equal. Qed.

Lemma leading_alpha_app k rest :
  leading_alpha k = k →
  (∀ c r, rest = String c r → is_alpha c = false) →
  leading_alpha (k +:+ rest) = k.
Proof.
  intros Hk Hrest. induction k as [|a k IH].
  - rewrite app_nil_l. destruct rest as [|c r]; [reflexivity|].
    simpl. by rewrite (Hrest c r eq_refl).
  - rewrite app_cons. simpl in *.
    destruct (is_alpha a); [|discriminate Hk].
    injection Hk as Hk. by rewrite (IH Hk).
Qed.

Lemma VALID_DATABRICKS_TYPES_upper t :
  t ∈ VALID_DATABRICKS_TYPES → upper t = t.
Proof.
  unfold VALID_DATABRICKS_TYPES. rewrite !elem_of_union, !elem_of_singleton.
  intros Ht. repeat destruct Ht as [Ht|Ht]; subst t; reflexivity.
Qed.

(** X13: the type check of [_columndef_sql] reads the letters the rendered
    type begins with and nothing after them.  When those letters are one of
    [VALID_DATABRICKS_TYPES] the column is rendered with the whole type
    text, whatever follows the letters; the comparison is by exact text, so
    letters that are not all upper case are refused. *)
Theorem columndef_sql_checks_leading_letters
    (self : Generator) (σ : store) l e e' k rest :
  σ !! l = Some e → keep_comment_constraints e = Return e' →
  sql self e' "kind" = k +:+ rest →
  k ≠ "" → leading_alpha k = k →
  (∀ c r, rest = String c r → is_alpha c = false) →
  (k ∈ VALID_DATABRICKS_TYPES →
     ∃ constraints,
       (_columndef_sql self σ l).2
       = Return (sql self e' "this" +:+ " " +:+ k +:+ rest +:+ constraints))
  ∧ (upper k ≠ k →
       (_columndef_sql self σ l).2
       = Raise (UnsupportedError (k +:+ " is not a known Databricks type"))).
Proof.
  intros Hl Hkeep Hkind Hk Halpha Hrest.
  assert (search_leading_alpha (sql self e' "kind") = Some k) as Hsearch.
  { unfold search_leading_alpha.
    rewrite Hkind, (leading_alpha_app k rest Halpha Hrest).
    by destruct k. }
  rewrite (DatabricksFacts.columndef_sql_result self σ l e e' Hl Hkeep).
  rewrite Hsearch, Hkind. split.
  - intros Hvalid.
    rewrite bool_decide_eq_false_2 by (intros Hn; by apply Hn).
    destruct (negb _).
    + exists "". by rewrite app_nil_r.
    + eexists (" " +:+ _). f_equal. rewrite !app_assoc. reflexivity.
  - intros Hupper.
    rewrite bool_decide_eq_true_2; [reflexivity|].
    intros Hvalid. by apply Hupper, VALID_DATABRICKS_TYPES_upper.
Qed.

(** X13 at a column [a decimal(19, 4)], the type in lower case. *)
Lemma columndef_sql_checks_leading_letters_witness :
  (_columndef_sql Sample.generator
     {[ 1%positive := Sample.columndef "decimal(19, 4)" ]} 1%positive).2
  = Raise (UnsupportedError ("decimal" +:+ " is not a known Databricks type")).
Proof.
  assert (({[ 1%positive := Sample.columndef "decimal(19, 4)" ]} : store)
            !! 1%positive
          = Some (Sample.columndef "decimal(19, 4)")) as Hl by reflexivity.
  assert (keep_comment_constraints (Sample.columndef "decimal(19, 4)")
          = Return (Sample.columndef "decimal(19, 4)")) as Hkeep
    by reflexivity.
  assert (sql Sample.generator (Sample.columndef "decimal(19, 4)") "kind"
          = "decimal" +:+ "(19, 4)") as Hkind by reflexivity.
  apply (proj2 (columndef_sql_checks_leading_letters
                  Sample.generator _ _ _ _ "decimal" "(19, 4)" Hl Hkeep Hkind
                  ltac:(discriminate) eq_refl
                  ltac:(intros c r [= <- _]; reflexivity))).
  discriminate.
Defined.

(** *** The type names of the dialect *)

(** X14: the type names the dialect writes itself pass the type check of
    its column definitions.  What [_datatype_map] returns for the character
    and timestamp types begins with letters that are one of
    [VALID_DATABRICKS_TYPES] ([TIMESTAMP_LTZ] by its letters before the
    underscore), and each of the seven entries [TYPE_MAPPING] sets, whatever
    the base table holds for the key, is one of them as a whole. *)
Theorem dialect_type_names_are_valid :
  (∀ type_of datatype_sql expression t,
     type_of expression = Some t →
     t ∈ [VARCHAR; NVARCHAR; CHAR; TIMESTAMP; TIMESTAMPLTZ] →
     ∃ k, search_leading_alpha (_datatype_map type_of datatype_sql expression)
          = Some k
          ∧ k ∈ VALID_DATABRICKS_TYPES)
  ∧ (∀ base t,
       t ∈ TYPE_MAPPING_keys →
       ∃ name, TYPE_MAPPING base t = Some name
               ∧ search_leading_alpha name = Some name
               ∧ name ∈ VALID_DATABRICKS_TYPES).
Proof.
  split.
  - intros type_of datatype_sql expression t Htype Ht.
    unfold _datatype_map. rewrite Htype.
    rewrite !elem_of_cons, elem_of_nil in Ht.
    repeat destruct Ht as [Ht|Ht]; try done; subst t;
      eexists; (split; [reflexivity|]);
      unfold VALID_DATABRICKS_TYPES; set_solver.
  - intros base t Ht. unfold TYPE_MAPPING_keys in Ht.
    rewrite !elem_of_cons, elem_of_nil in Ht.
    repeat destruct Ht as [Ht|Ht]; try done; subst t;
      eexists; (split; [reflexivity|]); (split; [reflexivity|]);
      unfold VALID_DATABRICKS_TYPES; set_solver.
Qed.

(** *** ARRAY_AGG *)

(** X15: [arrayagg_sql] renders what is aggregated and never its ordering.
    An aggregate over an [Order] node renders as the aggregate over the
    expression that is ordered, so two aggregates of the same expression
    that differ in their ordering render the same. *)
Theorem arrayagg_sql_drops_ordering
    (self : Generator) cls cls' (args args' order_args : gmap string value) x :
  args !! "this" = Some (VExp "Order" order_args) →
  order_args !! "this" = Some x →
  args' !! "this" = Some x → isinstance x "Order" = false →
  arrayagg_sql self (VExp cls args) = func self "ARRAY_AGG" [x]
  ∧ arrayagg_sql self (VExp cls args) = arrayagg_sql self (VExp cls' args').
Proof.
  intros Hthis Hx Hthis' Hnot.
  unfold arrayagg_sql, get_arg, args_of. rewrite Hthis, Hthis'. simpl.
  rewrite Hx, Hnot. done.
Qed.

(** X15 at [ARRAY_AGG(a ORDER BY b)] and [ARRAY_AGG(a)]. *)
Lemma arrayagg_sql_drops_ordering_witness :
  arrayagg_sql Sample.generator
    (VExp "ArrayAgg"
       {[ "this" := VExp "Order"
                      {[ "this" := VExp "Column" {[ "this" := VStr "a" ]};
                         "expressions" :=
                           VList [VExp "Ordered"
                                    {[ "this" := VExp "Column"
                                                   {[ "this" := VStr "b" ]} ]}]
                      ]} ]})
  = "ARRAY_AGG(a)".
Proof.
  set (a := VExp "Column" {[ "this" := VStr "a" ]}).
  set (order_args :=
         ({[ "this" := a;
             "expressions" :=
               VList [VExp "Ordered"
                        {[ "this" := VExp "Column" {[ "this" := VStr "b" ]} ]}]
          ]} : gmap string value)).
  assert (({[ "this" := VExp "Order" order_args ]} : gmap string value)
            !! "this" = Some (VExp "Order" order_args)) as Hthis
    by reflexivity.
  assert (order_args !! "this" = Some a) as Hx by reflexivity.
  assert (({[ "this" := a ]} : gmap string value) !! "this" = Some a)
    as Hthis' by reflexivity.
  rewrite (proj1 (arrayagg_sql_drops_ordering Sample.generator
                    "ArrayAgg" "ArrayAgg" _ _ _ a Hthis Hx Hthis' eq_refl)).
  reflexivity.
Defined.
End GeneratorEdges.

(** ** The parser: how far the search for the table alias goes *)

Module ParserAlias.
Import SnowParser.

Section parser.
Variable Parser : Type.
Variable _advance : Z → Parser → result Parser.
Variable _match_FROM : Parser → bool.
Variable _curr_text : Parser → option string.
Variable len_tokens : Parser → Z.

(** While [run] holds, what [found_from] was before the turn is not read. *)
Lemma while_run_found_from fuel self_copy found_from indx table_alias :
  get_table_alias_while Parser _advance _match_FROM _curr_text len_tokens
    fuel self_copy true found_from indx table_alias
  = get_table_alias_while Parser _advance _match_FROM _curr_text len_tokens
      fuel self_copy true false indx table_alias.
Proof. destruct fuel; reflexivity. Qed.

(** [m] turns of the loop, from the state [at_ d0] on, over tokens that are
    not a [FROM] and before the count reaches the number of tokens [n];
    [at_ d] is the parser after [d] moves. *)
Lemma while_steps (at_ : nat → Parser) (n : Z) m :
  ∀ fuel d0 found_from indx table_alias,
    (∀ d, d0 ≤ d < d0 + m → _advance 1 (at_ d) = Return (at_ (S d))) →
    (∀ d, d0 < d ≤ d0 + m → _match_FROM (at_ d) = false) →
    (∀ d, d0 < d ≤ d0 + m → len_tokens (at_ d) = n) →
    (∀ d, 1 ≤ d ≤ m → (indx + Z.of_nat d)%Z ≠ n) →
    get_table_alias_while Parser _advance _match_FROM _curr_text len_tokens
      (m + fuel) (at_ d0) true found_from indx table_alias
    = get_table_alias_while Parser _advance _match_FROM _curr_text len_tokens
        fuel (at_ (d0 + m)) true false (indx + Z.of_nat m) table_alias.
Proof.
  induction m as [|m IH];
    intros fuel d0 found_from indx table_alias Hadv Hfrom Hlen Hindx.
  - rewrite Z.add_0_r, Nat.add_0_r. apply while_run_found_from.
  - change (S m + fuel) with (S (m + fuel)).
    unfold get_table_alias_while at 1; fold get_table_alias_while.
    change (true || found_from) with true. cbv beta iota zeta.
    rewrite (Hadv d0) by lia.
    rewrite (Hfrom (S d0)) by lia. rewrite (Hlen (S d0)) by lia.
    assert ((indx + 1 =? n)%Z = false) as ->
      by (apply Z.eqb_neq, (Hindx 1); lia).
    rewrite (IH fuel (S d0)).
    + replace (S d0 + m) with (d0 + S m) by lia. f_equal. lia.
    + intros d Hd. apply Hadv. lia.
    + intros d Hd. apply Hfrom. lia.
    + intros d Hd. apply Hlen. lia.
    + intros d Hd.
      replace (indx + 1 + Z.of_nat d)%Z with (indx + Z.of_nat (S d))%Z by lia.
      apply Hindx. lia.
Qed.


(** X17: an error of [_advance] ends the search.  When the parser moves [m]
    times over tokens that are not a [FROM], fewer times than it has
    tokens, and the next move raises, the search raises that error: it does
    not return an alias, and it does not return [None]. *)
Theorem get_table_alias_advance_raises
    (self : Parser) (at_ : nat → Parser) (m fuel : nat) e :
  at_ 0 = self →
  (∀ d, d < m → _advance 1 (at_ d) = Return (at_ (S d))) →
  (∀ d, d ≤ m → len_tokens (at_ d) = len_tokens self) →
  (Z.of_nat m < len_tokens self)%Z →
  (∀ d, 1 ≤ d ≤ m → _match_FROM (at_ d) = false) →
  _advance 1 (at_ m) = Raise e →
  m < fuel →
  _get_table_alias Parser _advance _match_FROM _curr_text len_tokens fuel self
  = Some (Raise e).
Proof.
  intros H0 Hadv Hlen Hm Hfrom Hraise Hfuel.
  replace fuel with (m + S (fuel - S m)) by lia.
  unfold _get_table_alias. rewrite <- H0.
  rewrite (while_steps at_ (len_tokens self) m).
  - unfold get_table_alias_while. cbv beta iota zeta.
    change (true || false) with true. cbv beta iota zeta.
    change (0 + m) with m. by rewrite Hraise.
  - intros d Hd. apply Hadv. lia.
  - intros d Hd. apply Hfrom. lia.
  - intros d Hd. apply Hlen. lia.
  - intros d Hd. lia.
Qed.
End parser.


(** X17 at [SELECT c:a], from the colon: the third move is past the token
    list. *)
Lemma get_table_alias_advance_raises_witness :
  _get_table_alias SampleParser.Parser SampleParser._advance
    SampleParser._match_FROM SampleParser.curr SampleParser.len_tokens
    5 SampleParser.select_only
  = Some (Raise (OtherError "IndexError")).
Proof.
  apply (get_table_alias_advance_raises SampleParser.Parser
           SampleParser._advance SampleParser._match_FROM SampleParser.curr
           SampleParser.len_tokens SampleParser.select_only
           (λ d, (SampleParser.select_only.1, (2 + Z.of_nat d)%Z)) 2 5).
  - reflexivity.
  - intros d Hd. assert (d = 0 ∨ d = 1) as [-> | ->] by lia; reflexivity.
  - intros d Hd. reflexivity.
  - vm_compute. reflexivity.
  - intros d Hd. assert (d = 1 ∨ d = 2) as [-> | ->] by lia; reflexivity.
  - reflexivity.
  - lia.
Defined.
End ParserAlias.

(** ** The tokenizer: the parse error of a failed scan *)

Module TokenizerErrors.
Import PyStr PyStrFacts SnowTokenizer.

Lemma substring_nil n m : substring n m "" = "".
Proof. by destruct n, m. Qed.

Section tokenizer.
Context {K : Type} `{Countable K} {V : Type} {token : Type}.
Variable finditer : string → string → list string.
Variable new_trie : list string → gmap K (Trie.entry K V).
Variable reset : Tokenizer K V token → Tokenizer K V token.
Variable _scan : Tokenizer K V token → Tokenizer K V token * option exn.

(** C9: whenever the base scan raises, whatever the exception, [tokenize]
    raises a parse error and returns no token list.  The message quotes the
    slice of the statement from index [i] to index [j], where [i] is 50
    before the offset of the failure, or 0 when that would be before the
    statement, and [j] is 50 after the offset, or the last index of the
    statement when that would be past it: the window reaches at most 50
    characters before and at most 50 after the offset, lies inside the
    statement, and is a piece of the statement of at most 100 characters.
    The base scan leaves the statement and its length as [tokenize] set
    them. *)
Theorem tokenize_error_context_window self (sql_ : string) st e :
  (∀ s, sql (_scan s).1 = sql s ∧ size (_scan s).1 = size s) →
  _scan (prepare finditer new_trie reset self sql_) = (st, Some e) →
  (0 ≤ _current st)%Z →
  let n := Z.of_nat (String.length sql_) in
  let i := Z.max (_current st - 50) 0 in
  let j := if (_current st + 50 <? n)%Z
           then (_current st + 50)%Z else Z.max (n - 1) 0 in
  tokenize finditer new_trie reset _scan self sql_
  = (st, Raise (ParseError ("Error tokenizing '" +:+ slice sql_ i j +:+ "'")))
  ∧ contains (slice sql_ i j)
             ("Error tokenizing '" +:+ slice sql_ i j +:+ "'") = true
  ∧ (_current st - 50 ≤ i ∧ j ≤ _current st + 50 ∧ 0 ≤ i ∧ 0 ≤ j ≤ n)%Z
  ∧ (∃ before after, sql_ = before +:+ slice sql_ i j +:+ after)
  ∧ String.length (slice sql_ i j) ≤ 100
  ∧ ∀ toks,
      (tokenize finditer new_trie reset _scan self sql_).2 ≠ Return toks.
Proof.
  intros Hkeep Hscan Hcur n i j.
  assert (sql st = sql_ ∧ size st = n) as [Hsql Hsize].
  { destruct (Hkeep (prepare finditer new_trie reset self sql_)) as [Hs Hn].
    rewrite Hscan in Hs, Hn. split; [exact Hs | exact Hn]. }
  assert (context st = slice sql_ i j) as Hcontext.
  { unfold context. rewrite Hsql, Hsize.
    assert ((if (0 <? _current st - 50)%Z then (_current st - 50)%Z else 0%Z)
            = i) as -> by (unfold i; destruct (Z.ltb_spec 0 (_current st - 50)); lia).
    unfold j. destruct (Z.ltb_spec (_current st + 50) n) as [Hin|Hout];
      [reflexivity|].
    destruct (decide (n = 0%Z)) as [Hn|Hn].
    - assert (sql_ = "") as -> by (destruct sql_; [done | simpl in *; lia]).
      unfold slice. by rewrite !substring_nil.
    - by replace (Z.max (n - 1) 0) with (n - 1)%Z by lia. }
  assert (tokenize finditer new_trie reset _scan self sql_
          = (st, Raise (ParseError
                          ("Error tokenizing '" +:+ slice sql_ i j +:+ "'"))))
    as Hout.
  { unfold tokenize. rewrite Hscan, Hcontext. reflexivity. }
  split; [exact Hout|].
  split; [apply contains_app_r, contains_prefix, prefix_app|].
  split.
  { unfold i, j. destruct (Z.ltb_spec (_current st + 50) n); lia. }
  split; [apply TokenizerKeywords.substring_inside|].
  split.
  - unfold slice. etrans; [apply TokenizerKeywords.substring_length_le|].
    fold n. unfold slice_index, i, j.
    repeat match goal with
           | |- context [Z.ltb ?a ?b] => destruct (Z.ltb_spec a b)
           end; lia.
  - intros toks. rewrite Hout. discriminate.
Qed.
End tokenizer.

Lemma sample_scan_keeps_statement current e
    (s : Tokenizer string bool string) :
  sql (Sample.scan_raising current e s).1 = sql s
  ∧ size (Sample.scan_raising current e s).1 = size s.
Proof. split; reflexivity. Qed.

(** C9 at the statement [SELECT 'abc] with the scan giving up at offset 5:
    the window runs from index 0 to index 10. *)
Lemma tokenize_error_context_window_witness :
  Sample.tokenize_raising 5 "SELECT 'abc"
  = Raise (ParseError
             ("Error tokenizing '" +:+ slice "SELECT 'abc" 0 10 +:+ "'")).
Proof.
  unfold Sample.tokenize_raising.
  destruct (tokenize_error_context_window (λ _ _, []) (λ _, ∅) (λ self, self)
              (Sample.scan_raising 5 (OtherError "TokenError"))
              Sample.tokenizer "SELECT 'abc"
              (Sample.scan_raising 5 (OtherError "TokenError")
                 (prepare (λ _ _, []) (λ _, ∅) (λ self, self)
                    Sample.tokenizer "SELECT 'abc")).1
              (OtherError "TokenError")
              (sample_scan_keeps_statement 5 (OtherError "TokenError"))
              eq_refl ltac:(simpl; lia)) as [Hout _].
  rewrite Hout. reflexivity.
Defined.
End TokenizerErrors.
